(** * duckdb-snowflake: the CSV deployment function, embedded and verified

  The development follows [snowflake_deployer.py].  The single function
  [deploy_csvs_to_snowflake] glues four external services together
  (the Snowpark session, an in-memory DuckDB connection, [glob] and
  [os.path]); the Python control flow (try / except / finally, the early
  [return False], the two loops) is embedded as written, and the external
  services are represented by a [World]: a record that says, for every
  external call the function makes, whether it raises and what it yields.

  Strings are byte strings (the ASCII fragment of Python's [str]);
  paths follow [posixpath]. *)

From Stdlib Require Import Ascii.
From stdpp Require Import gmap strings list fin_maps sorting.

Local Open Scope char_scope.
Local Open Scope stdpp_scope.

Set Warnings "-clear-no-such-hyp".

(** ** Python [str] methods used by the program *)

Module Str.

(** [s[n:]] *)
Fixpoint drop (n : nat) (s : string) : string :=
  match n, s with
  | S n', String _ s' => drop n' s'
  | _, _ => s
  end.

(** [s[:n]] *)
Fixpoint take (n : nat) (s : string) : string :=
  match n, s with
  | S n', String a s' => String a (take n' s')
  | _, _ => ""
  end.

(** [s.startswith(pre)] *)
Definition startswith (s pre : string) : bool := String.prefix pre s.

(** [sub in s] *)
Fixpoint occurs (sub s : string) : bool :=
  String.prefix sub s ||
  match s with
  | "" => false
  | String _ s' => occurs sub s'
  end.

(** [s.rfind(c) + 1] for a one-character [c]: one past the index of the
    last occurrence, [0] when there is none. *)
Fixpoint rfind_succ (c : ascii) (s : string) : nat :=
  match s with
  | "" => 0
  | String a s' =>
      match rfind_succ c s' with
      | 0 => if Ascii.eqb a c then 1 else 0
      | S k => S (S k)
      end
  end.

(** [s.rstrip(c)] for a one-character [c]. *)
Fixpoint rstrip (c : ascii) (s : string) : string :=
  match s with
  | "" => ""
  | String a s' =>
      match rstrip c s' with
      | "" => if Ascii.eqb a c then "" else String a ""
      | r => String a r
      end
  end.

(** [s == c * len(s)] *)
Fixpoint all_char (c : ascii) (s : string) : bool :=
  match s with
  | "" => true
  | String a s' => Ascii.eqb a c && all_char c s'
  end.

(** [s.endswith(c)] for a one-character [c]. *)
Fixpoint endswith_char (s : string) (c : ascii) : bool :=
  match s with
  | "" => false
  | String a "" => Ascii.eqb a c
  | String _ s' => endswith_char s' c
  end.

(** [c.upper()] for an ASCII character: the letters [a]-[z] are mapped to
    [A]-[Z].  Bytes above 127 are left alone, which is not what Python's
    Unicode-aware method does to the characters they encode; the theorems
    that depend on the value of [upper] are stated for ASCII names
    ([Detail.is_ascii], [Detail.plain_name]). *)
Definition upper_char (c : ascii) : ascii :=
  let n := N_of_ascii c in
  if ((97 <=? n) && (n <=? 122))%N then ascii_of_N (n - 32) else c.

(** [s.upper()] *)
Fixpoint upper (s : string) : string :=
  match s with
  | "" => ""
  | String a s' => String (upper_char a) (upper s')
  end.

(** [s.replace(old, new)] for a non-empty [old]: a left-to-right scan that
    replaces every non-overlapping occurrence.  [skip] counts the
    characters of the occurrence just replaced that are still to be
    passed over. *)
Fixpoint replace_scan (old new : string) (skip : nat) (s : string) : string :=
  match s with
  | "" => ""
  | String a s' =>
      match skip with
      | S k => replace_scan old new k s'
      | 0 =>
          if String.prefix old s
          then new +:+ replace_scan old new (String.length old - 1) s'
          else String a (replace_scan old new 0 s')
      end
  end.

(** [s.replace("", new)] puts [new] before every character and at the end. *)
Fixpoint replace_empty (new s : string) : string :=
  match s with
  | "" => new
  | String a s' => new +:+ String a (replace_empty new s')
  end.

Definition replace (s old new : string) : string :=
  match old with
  | "" => replace_empty new s
  | _ => replace_scan old new 0 s
  end.

End Str.

(** ** [posixpath] *)

Module PosixPath.

Definition sep : ascii := "/".

(** [os.path.join(a, b)] *)
Definition join (a b : string) : string :=
  if Str.startswith b "/" then b
  else
    match a with
    | "" => b
    | _ => if Str.endswith_char a sep
           then a +:+ b
           else a +:+ "/" +:+ b
    end.

(** [os.path.split(p)] *)
Definition split (p : string) : string * string :=
  let i := Str.rfind_succ sep p in
  let head := Str.take i p in
  let tail := Str.drop i p in
  let head :=
    match head with
    | "" => head
    | _ => if Str.all_char sep head then head else Str.rstrip sep head
    end in
  (head, tail).

(** [os.path.basename(p)] *)
Definition basename (p : string) : string :=
  Str.drop (Str.rfind_succ sep p) p.

End PosixPath.

(** ** [fnmatch] *)

Module Fnmatch.

(** [fnmatchcase(name, pat)]: a full match of [name] against the shell
    pattern [pat], where [*] stands for any run of characters and [?] for
    one character.  Bracket classes are not modelled (they are taken
    literally); the one pattern of the program, [*.csv], has none. *)
Fixpoint fnmatchcase_go (pat : string) : string → bool :=
  match pat with
  | "" => λ name, bool_decide (name = "")
  | String "*" pat' =>
      fix star (name : string) : bool :=
        fnmatchcase_go pat' name ||
        match name with
        | "" => false
        | String _ name' => star name'
        end
  | String "?" pat' =>
      λ name, match name with
              | "" => false
              | String _ name' => fnmatchcase_go pat' name'
              end
  | String c pat' =>
      λ name, match name with
              | "" => false
              | String a name' => Ascii.eqb a c && fnmatchcase_go pat' name'
              end
  end.

Definition fnmatchcase (name pat : string) : bool := fnmatchcase_go pat name.

(** [fnmatch.filter(names, pat)]; [os.path.normcase] is the identity on
    POSIX. *)
Definition filter (names : list string) (pat : string) : list string :=
  List.filter (λ name, fnmatchcase name pat) names.

End Fnmatch.

(** ** The external world

  Table contents, as DuckDB infers them from a CSV file and as Snowflake
  stores them: rows of fields.  The Arrow batch and the Snowpark dataframe
  carry the same rows. *)

Definition Data : Type := list (list string).

(** Everything outside the program.  A [bool] field says whether the call
  returns ([true]) or raises an [Exception] ([false]). *)
Record World : Type := {
(** [Session.builder.config("connection_name", name).create()] *)
session_create_ok : string → bool;
(** [session.use_database(db)] and [session.use_schema(schema)] *)
use_database_ok : string → bool;
use_schema_ok : string → bool;
(** [duckdb.connect(database=':memory:', read_only=False)] *)
duckdb_connect_ok : bool;
(** [os.scandir(dirname)]: the entry names, in the order the file system
    yields them; empty when the directory is missing or unreadable
    ([glob] swallows the [OSError]). *)
scandir : string → list string;
(** [os.path.lexists] and [os.path.isdir] *)
lexists : string → bool;
isdir : string → bool;
(** the directories that a directory pattern with wildcards expands to
    ([glob]'s recursive call on the directory part) *)
expand_dirs : string → list string;
(** DuckDB accepts the statement
    [CREATE TABLE <table> AS SELECT * FROM read_csv_auto('<path>')]
    as the creation of a table called [table] from the file at [path] *)
create_stmt_ok : string → string → bool;
(** [read_csv_auto(path)]: the rows of the file, [None] when the file
    cannot be read as CSV *)
read_csv_auto : string → option Data;
(** [con.execute("SHOW TABLES").fetchall()] *)
show_tables_ok : bool;
(** [con.table(name).to_arrow_table()] *)
to_arrow_table_ok : string → bool;
(** [session.create_dataframe(arrow_table)] *)
create_dataframe_ok : Data → bool;
(** [snowpark_df.write.mode("overwrite").save_as_table(name)] *)
save_as_table_ok : string → bool;
(** [session.close()] and [con.close()] *)
session_close_ok : bool;
con_close_ok : bool;
}.

(** ** [glob] *)

Module Glob.
Section GlobWorld.
Context (w : World).

(** [has_magic(s)]: one of [*], [?], [[] occurs in [s]. *)
Fixpoint has_magic (s : string) : bool :=
  match s with
  | "" => false
  | String a s' =>
      Ascii.eqb a "*" || Ascii.eqb a "?" || Ascii.eqb a "[" || has_magic s'
  end.

(** [_ishidden(path)]: [path[0] == '.'] (directory entries are never
    empty). *)
Definition _ishidden (path : string) : bool :=
  match path with
  | String a _ => Ascii.eqb a "."
  | "" => false
  end.

(** [_join(dirname, basename)] *)
Definition _join (dirname basename : string) : string :=
  match dirname, basename with
  | "", _ => basename
  | _, "" => dirname
  | _, _ => PosixPath.join dirname basename
  end.

(** [_listdir(dirname, None, False)]: the empty name stands for
    [os.curdir]. *)
Definition _listdir (dirname : string) : list string :=
  scandir w (match dirname with "" => "." | _ => dirname end).

(** [_glob1(dirname, pattern, None, False)] *)
Definition _glob1 (dirname pattern : string) : list string :=
  let names := _listdir dirname in
  let names :=
    if negb (_ishidden pattern)
    then List.filter (λ x, negb (_ishidden x)) names
    else names in
  Fnmatch.filter names pattern.

(** [_glob0(dirname, basename, None, False)] *)
Definition _glob0 (dirname basename : string) : list string :=
  match basename with
  | "" => if isdir w dirname then [basename] else []
  | _ => if lexists w (_join dirname basename) then [basename] else []
  end.

(** The [dirs] that [_iglob] iterates over. *)
Definition iglob_dirs (pathname dirname : string) : list string :=
  if negb (bool_decide (dirname = pathname)) && has_magic dirname
  then expand_dirs w dirname
  else [dirname].

(** [glob.glob(pathname)] with [recursive=False], [root_dir=None]. *)
Definition glob (pathname : string) : list string :=
  let '(dirname, basename) := PosixPath.split pathname in
  if negb (has_magic pathname) then
    match basename with
    | "" => if isdir w dirname then [pathname] else []
    | _ => if lexists w pathname then [pathname] else []
    end
  else
    match dirname with
    | "" => _glob1 "" basename
    | _ =>
        let glob_in_dir := if has_magic basename then _glob1 else _glob0 in
        d ← iglob_dirs pathname dirname;
        PosixPath.join d <$> glob_in_dir (_join "" d) basename
    end.

End GlobWorld.
End Glob.

(** ** The deployment function *)

Module Deployer.

(** The Snowpark session: its current database and schema. *)
Record Session : Type := { database : string; schema : string }.

(** The in-memory DuckDB database behind a connection: its tables, oldest
    first. *)
Definition DuckDB : Type := list (string * Data).

(** The lines the function prints. *)
Inductive Message : Type :=
| MsgStarting
| MsgConnected
| MsgContext (db sc : string)
| MsgDuckConnected
| MsgNoCsvFiles (csv_directory : string)
| MsgFound (n : nat)
| MsgLoaded (csv_file table_name : string)
| MsgTables (duckdb_tables : list string)
| MsgProcessing (table_name : string)
| MsgDeployed (table_name : string)
| MsgError
| MsgSnowflakeClosed
| MsgDuckClosed
| MsgFinished.

(** The calls the function makes, recorded when they are made (whether or
    not they then raise). *)
Inductive Call : Type :=
| print (m : Message)
| session_builder_create (connection_name : string)
| session_use_database (db : string)
| session_use_schema (sc : string)
| duckdb_connect
| glob_glob (pathname : string)
| con_execute_create (table_name csv_file : string)
| con_execute_show_tables
| con_table_to_arrow_table (table_name : string)
| session_create_dataframe (arrow_table : Data)
| write_save_as_table (table_name : string)
| session_close
| con_close.

Global Instance Message_eq_dec : EqDecision Message.
Proof. solve_decision. Defined.
Global Instance Call_eq_dec : EqDecision Call.
Proof. solve_decision. Defined.

(** The state of one run: the warehouse (tables by database, schema and
    name; it outlives the run), the two local variables [session] and
    [con] ([None] is Python's [None]), and the calls made so far. *)
Record Run : Type := {
  warehouse : gmap (string * string * string) Data;
  session : option Session;
  con : option DuckDB;
  trace : list Call;
}.

(** How a block of statements ends: it falls through, executes
    [return b], or raises an [Exception]. *)
Inductive Res (A : Type) : Type :=
| Normal (a : A)
| Returned (b : bool)
| Raised.
Global Arguments Normal {A} a.
Global Arguments Returned {A} b.
Global Arguments Raised {A}.

Definition Py (A : Type) : Type := Run → Run * Res A.

Global Instance Py_ret : MRet Py := λ A a s, (s, Normal a).
Global Instance Py_bind : MBind Py := λ A B k m s,
  match m s with
  | (s', Normal a) => k a s'
  | (s', Returned b) => (s', Returned b)
  | (s', Raised) => (s', Raised)
  end.

Definition raise {A} : Py A := λ s, (s, Raised).
Definition return_ {A} (b : bool) : Py A := λ s, (s, Returned b).
Definition get : Py Run := λ s, (s, Normal s).

Definition call (c : Call) : Py unit := λ s,
  ({| warehouse := warehouse s; session := session s; con := con s;
      trace := trace s ++ [c] |}, Normal ()).

Definition assign_session (v : option Session) : Py unit := λ s,
  ({| warehouse := warehouse s; session := v; con := con s;
      trace := trace s |}, Normal ()).

Definition assign_con (v : option DuckDB) : Py unit := λ s,
  ({| warehouse := warehouse s; session := session s; con := v;
      trace := trace s |}, Normal ()).

Definition put_warehouse (m : gmap (string * string * string) Data) : Py unit :=
  λ s, ({| warehouse := m; session := session s; con := con s;
           trace := trace s |}, Normal ()).

(** An external call that raises when the world says so. *)
Definition guard (ok : bool) : Py unit := if ok then mret () else raise.

(** [for x in xs: body(x)] *)
Fixpoint for_each {A} (xs : list A) (body : A → Py unit) : Py unit :=
  match xs with
  | [] => mret ()
  | x :: xs' => body x ;; for_each xs' body
  end.

(** [try: body / except Exception: handler / finally: final].  The
    [finally] block runs whatever happened before it; when it falls
    through, the pending outcome (fall through, [return], or an exception
    that left the handler) resumes, and when it raises or returns itself,
    that replaces the pending outcome. *)
Definition try_except_finally {A} (body handler : Py A) (final : Py unit) : Py A :=
  λ s,
    let '(s1, r1) := body s in
    let '(s2, r2) := match r1 with
                     | Raised => handler s1
                     | _ => (s1, r1)
                     end in
    match final s2 with
    | (s3, Normal _) => (s3, r2)
    | (s3, Returned b) => (s3, Returned b)
    | (s3, Raised) => (s3, Raised)
    end.

Section DeployerWorld.
Context (w : World).

(** *** The external calls *)

(** [session = Session.builder.config("connection_name", name).create()];
    the context the profile starts in plays no role, the function sets
    both parts before it writes. *)
Definition do_session_create (connection_name : string) : Py unit :=
  call (session_builder_create connection_name) ;;
  guard (session_create_ok w connection_name) ;;
  assign_session (Some {| database := ""; schema := "" |}).

Definition do_use_database (db : string) : Py unit :=
  call (session_use_database db) ;;
  guard (use_database_ok w db) ;;
  s ← get;
  match session s with
  | Some ss => assign_session (Some {| database := db; schema := schema ss |})
  | None => raise
  end.

Definition do_use_schema (sc : string) : Py unit :=
  call (session_use_schema sc) ;;
  guard (use_schema_ok w sc) ;;
  s ← get;
  match session s with
  | Some ss => assign_session (Some {| database := database ss; schema := sc |})
  | None => raise
  end.

(** [con = duckdb.connect(database=':memory:', read_only=False)]: a
    fresh, empty database. *)
Definition do_duckdb_connect : Py unit :=
  call duckdb_connect ;;
  guard (duckdb_connect_ok w) ;;
  assign_con (Some []).

Definition do_glob (pathname : string) : Py (list string) :=
  call (glob_glob pathname) ;;
  mret (Glob.glob w pathname).

(** [con.execute("CREATE TABLE t AS SELECT * FROM read_csv_auto('f')")].
    The statement has neither [OR REPLACE] nor [IF NOT EXISTS]: DuckDB
    raises a catalog error when a table [t] already exists.  The text [t]
    is spliced into the statement, and DuckDB reads it as SQL: the table is
    called [t] when [t] is one plain identifier ([Detail.plain_name]), and
    this is what is modelled.  For other texts (a qualified name such as
    [MAIN.SALES], leading blanks, [IF NOT EXISTS T], ...) DuckDB creates a
    table of another name or none; the theorems about table names are
    stated for plain names. *)
Definition do_execute_create (table_name csv_file : string) : Py unit :=
  call (con_execute_create table_name csv_file) ;;
  guard (create_stmt_ok w table_name csv_file) ;;
  s ← get;
  match con s, read_csv_auto w csv_file with
  | Some db, Some rows =>
      if bool_decide (table_name ∈ db.*1) then raise
      else assign_con (Some (db ++ [(table_name, rows)]))
  | _, _ => raise
  end.

(** [con.execute("SHOW TABLES").fetchall()], first column: DuckDB lists
    the table names [ORDER BY name]. *)
Definition do_show_tables : Py (list string) :=
  call con_execute_show_tables ;;
  guard (show_tables_ok w) ;;
  s ← get;
  match con s with
  | Some db => mret (merge_sort String.le (db.*1))
  | None => raise
  end.

(** [con.table(name).to_arrow_table()] *)
Definition do_to_arrow_table (table_name : string) : Py Data :=
  call (con_table_to_arrow_table table_name) ;;
  guard (to_arrow_table_ok w table_name) ;;
  s ← get;
  match con s with
  | Some db =>
      match list_find (λ t, t.1 = table_name) db with
      | Some (_, (_, rows)) => mret rows
      | None => raise
      end
  | None => raise
  end.

(** [session.create_dataframe(arrow_table)] *)
Definition do_create_dataframe (arrow_table : Data) : Py Data :=
  call (session_create_dataframe arrow_table) ;;
  guard (create_dataframe_ok w arrow_table) ;;
  mret arrow_table.

(** [df.write.mode("overwrite").save_as_table(name)]: creates or replaces
    the table of that name in the session's current database and
    schema. *)
Definition do_save_as_table (snowpark_df : Data) (table_name : string) : Py unit :=
  call (write_save_as_table table_name) ;;
  guard (save_as_table_ok w table_name) ;;
  s ← get;
  match session s with
  | Some ss =>
      put_warehouse (<[(database ss, schema ss, table_name) := snowpark_df]> (warehouse s))
  | None => raise
  end.

Definition do_session_close : Py unit :=
  call session_close ;; guard (session_close_ok w).

Definition do_con_close : Py unit :=
  call con_close ;; guard (con_close_ok w).

(** *** [deploy_csvs_to_snowflake] *)

(** line 51 *)
Definition table_name_of (csv_file : string) : string :=
  Str.upper (Str.replace (PosixPath.basename csv_file) ".csv" "").

(** lines 50-54, the body of the first loop *)
Definition load_csv (csv_file : string) : Py unit :=
  let table_name := table_name_of csv_file in
  do_execute_create table_name csv_file ;;
  call (print (MsgLoaded csv_file table_name)).

(** lines 61-66, the body of the second loop *)
Definition deploy_table (table_name : string) : Py unit :=
  call (print (MsgProcessing table_name)) ;;
  arrow_table ← do_to_arrow_table table_name;
  snowpark_df ← do_create_dataframe arrow_table;
  do_save_as_table snowpark_df table_name ;;
  call (print (MsgDeployed table_name)).

(** lines 33-66 *)
Definition try_body
    (csv_directory sf_database sf_schema sf_connection_name : string) : Py unit :=
  do_session_create sf_connection_name ;;
  call (print MsgConnected) ;;
  do_use_database sf_database ;;
  do_use_schema sf_schema ;;
  call (print (MsgContext sf_database sf_schema)) ;;
  do_duckdb_connect ;;
  call (print MsgDuckConnected) ;;
  csv_files ← do_glob (PosixPath.join csv_directory "*.csv");
  match csv_files with
  | [] =>
      call (print (MsgNoCsvFiles csv_directory)) ;;
      return_ false
  | _ =>
      call (print (MsgFound (length csv_files))) ;;
      for_each csv_files load_csv ;;
      duckdb_tables ← do_show_tables;
      call (print (MsgTables duckdb_tables)) ;;
      for_each duckdb_tables deploy_table
  end.

(** lines 68-70 *)
Definition except_body : Py unit :=
  call (print MsgError) ;;
  return_ false.

(** lines 72-79; a [Session] and a DuckDB connection are truthy. *)
Definition finally_body : Py unit :=
  s ← get;
  match session s with
  | Some _ => do_session_close ;; call (print MsgSnowflakeClosed)
  | None => mret ()
  end ;;
  s ← get;
  match con s with
  | Some _ => do_con_close ;; call (print MsgDuckClosed)
  | None => mret ()
  end.

Definition deploy_csvs_to_snowflake
    (csv_directory sf_database sf_schema sf_connection_name : string) : Py unit :=
  call (print MsgStarting) ;;
  assign_session None ;;
  assign_con None ;;
  try_except_finally
    (try_body csv_directory sf_database sf_schema sf_connection_name)
    except_body
    finally_body ;;
  call (print MsgFinished) ;;
  return_ true.

(** One invocation against a warehouse [wh]. *)
Definition run
    (csv_directory sf_database sf_schema sf_connection_name : string)
    (wh : gmap (string * string * string) Data) : Run * Res unit :=
  deploy_csvs_to_snowflake csv_directory sf_database sf_schema sf_connection_name
    {| warehouse := wh; session := None; con := None; trace := [] |}.

End DeployerWorld.
End Deployer.

(** ** What a run does, in closed form

  The functions below describe a run from the world alone, without the
  state monad; the theorems relate them to [Deployer.run]. *)

Module Summary.
Import Deployer.

(** Where the [try] block ends.  [PNoFiles] is the early [return False];
    [PDone] is falling through the end of the block; every other phase
    names the step that raised. *)
Inductive Phase : Type :=
| PConnect | PDuck | PNoFiles | PLoad | PShow | PDeploy | PDone.

Global Instance Phase_eq_dec : EqDecision Phase.
Proof. solve_decision. Defined.

(** The steps in program order: a call of rank [n] is made only by a run
    that got as far as step [n]. *)
Definition call_rank (c : Call) : nat :=
  match c with
  | print _ | session_builder_create _
  | session_use_database _ | session_use_schema _ => 0
  | duckdb_connect => 1
  | glob_glob _ => 2
  | con_execute_create _ _ => 3
  | con_execute_show_tables => 4
  | con_table_to_arrow_table _ | session_create_dataframe _
  | write_save_as_table _ => 5
  | session_close | con_close => 6
  end.

Definition phase_rank (ph : Phase) : nat :=
  match ph with
  | PConnect => 0 | PDuck => 1 | PNoFiles => 2 | PLoad => 3
  | PShow => 4 | PDeploy => 5 | PDone => 5
  end.

Definition within (n : nat) (c : Call) : bool := bool_decide (call_rank c ≤ n).

(** Writing the rows of the tables [ws] into database [db], schema [sc],
    first to last. *)
Definition apply_writes (db sc : string) (ws : list (string * Data))
    (wh : gmap (string * string * string) Data) : gmap (string * string * string) Data :=
  foldl (λ m t, <[(db, sc, t.1) := t.2]> m) wh ws.

Section SummaryWorld.
Context (w : World).

(** line 44 *)
Definition csv_files (csv_directory : string) : list string :=
  Glob.glob w (PosixPath.join csv_directory "*.csv").

(** The entries that line 44 keeps: [_glob1] drops the hidden ones, then
    [fnmatch.filter] keeps those that match. *)
Definition csv_match (name : string) : bool :=
  negb (Glob._ishidden name) && Fnmatch.fnmatchcase name "*.csv".

(** The directories that line 44 lists. *)
Definition csv_dirs (csv_directory : string) : list string :=
  let pathname := PosixPath.join csv_directory "*.csv" in
  match (PosixPath.split pathname).1 with
  | "" => [""]
  | dirname => Glob.iglob_dirs w pathname dirname
  end.

(** One round of the first loop, and the loop, on a database [duck]: the
    database afterwards, [None] when the [CREATE TABLE] raises.  As in
    [do_execute_create], the table is registered under the derived name,
    which is what DuckDB does for a plain identifier. *)
Definition load_one (f : string) (duck : DuckDB) : option DuckDB :=
  if create_stmt_ok w (table_name_of f) f then
    match read_csv_auto w f with
    | Some rows =>
        if bool_decide (table_name_of f ∈ duck.*1) then None
        else Some (duck ++ [(table_name_of f, rows)])
    | None => None
    end
  else None.

Fixpoint load_all (files : list string) (duck : DuckDB) : option DuckDB :=
  match files with
  | [] => Some duck
  | f :: files' =>
      match load_one f duck with
      | Some duck' => load_all files' duck'
      | None => None
      end
  end.

(** One round of the second loop: the rows written, [None] when one of
    its three calls raises. *)
Definition deploy_one (duck : DuckDB) (table_name : string) : option Data :=
  if to_arrow_table_ok w table_name then
    match list_find (λ t, t.1 = table_name) duck with
    | Some (_, (_, rows)) =>
        if create_dataframe_ok w rows && save_as_table_ok w table_name
        then Some rows else None
    | None => None
    end
  else None.

(** The second loop: the tables written, and whether the loop ran to its
    end. *)
Fixpoint deploy_all (duck : DuckDB) (names : list string) : list (string * Data) * bool :=
  match names with
  | [] => ([], true)
  | n :: names' =>
      match deploy_one duck n with
      | Some rows =>
          let '(ws, ok) := deploy_all duck names' in ((n, rows) :: ws, ok)
      | None => ([], false)
      end
  end.

Definition connect_ok (sf_database sf_schema sf_connection_name : string) : bool :=
  session_create_ok w sf_connection_name
  && use_database_ok w sf_database && use_schema_ok w sf_schema.

Definition stops_at
    (csv_directory sf_database sf_schema sf_connection_name : string) : Phase :=
  if negb (connect_ok sf_database sf_schema sf_connection_name) then PConnect
  else if negb (duckdb_connect_ok w) then PDuck
  else
    match csv_files csv_directory with
    | [] => PNoFiles
    | files =>
        match load_all files [] with
        | None => PLoad
        | Some duck =>
            if negb (show_tables_ok w) then PShow
            else if (deploy_all duck (merge_sort String.le (duck.*1))).2
                 then PDone else PDeploy
        end
    end.

(** The tables a run writes to the warehouse, first to last. *)
Definition writes
    (csv_directory sf_database sf_schema sf_connection_name : string)
    : list (string * Data) :=
  if decide (5 ≤ phase_rank
               (stops_at csv_directory sf_database sf_schema sf_connection_name))
  then
    match load_all (csv_files csv_directory) [] with
    | Some duck => (deploy_all duck (merge_sort String.le (duck.*1))).1
    | None => []
    end
  else [].

(** Every step of the [try] block completed and there was a file. *)
Definition steps_ok
    (csv_directory sf_database sf_schema sf_connection_name : string) : bool :=
  bool_decide
    (stops_at csv_directory sf_database sf_schema sf_connection_name = PDone).

(** The result of the [try] block and its handler, before cleanup. *)
Definition pending
    (csv_directory sf_database sf_schema sf_connection_name : string) : Res unit :=
  match stops_at csv_directory sf_database sf_schema sf_connection_name with
  | PDone => Normal ()
  | _ => Returned false
  end.

(** The calls and the outcome of the [finally] block, from which of the
    two variables are set. *)
Definition finally_calls (has_session has_con : bool) : list Call :=
  (if has_session
   then session_close :: (if session_close_ok w then [print MsgSnowflakeClosed] else [])
   else [])
  ++
  (if has_con && (negb has_session || session_close_ok w)
   then con_close :: (if con_close_ok w then [print MsgDuckClosed] else [])
   else []).

Definition finally_raises (has_session has_con : bool) : bool :=
  (has_session && negb (session_close_ok w))
  || (has_con && negb (con_close_ok w)).


(** A matched file loads: its statement is accepted and it reads as
    CSV. *)
Definition file_loads (csv_file : string) : bool :=
  create_stmt_ok w (table_name_of csv_file) csv_file
  && bool_decide (is_Some (read_csv_auto w csv_file)).

End SummaryWorld.

(** The table name the specification describes: the base name with its
    trailing extension removed (and nothing else), upper-cased. *)
Definition strip_extension (name : string) : string :=
  Str.take (String.length name - 4) name.

Definition spec_table_name (csv_file : string) : string :=
  Str.upper (strip_extension (PosixPath.basename csv_file)).

(** The base name of [csv_file] ends in [.csv] and has no other
    occurrence of [.csv]. *)
Definition extension_only_at_end (csv_file : string) : bool :=
  let name := PosixPath.basename csv_file in
  bool_decide (name = strip_extension name +:+ ".csv")
  && negb (Str.occurs ".csv" (strip_extension name)).

(** The rows of a file, empty when it does not read as CSV. *)
Definition rows_in (w : World) (csv_file : string) : Data :=
  default [] (read_csv_auto w csv_file).

End Summary.

(** ** Some concrete worlds *)

Module Scenario.

(** A world in which every call succeeds: directory [data] holds
    [entries], and [rows] gives the contents of each file. *)
Definition sunny (entries : list string) (rows : string → option Data) : World := {|
  session_create_ok := λ _, true;
  use_database_ok := λ _, true;
  use_schema_ok := λ _, true;
  duckdb_connect_ok := true;
  scandir := λ d, if bool_decide (d = "data") then entries else [];
  lexists := λ _, false;
  isdir := λ _, false;
  expand_dirs := λ _, [];
  create_stmt_ok := λ _ _, true;
  read_csv_auto := rows;
  show_tables_ok := true;
  to_arrow_table_ok := λ _, true;
  create_dataframe_ok := λ _, true;
  save_as_table_ok := λ _, true;
  session_close_ok := true;
  con_close_ok := true;
|}.

(** The same world, except that [session.close()] raises. *)
Definition close_fails (entries : list string) (rows : string → option Data) : World := {|
  session_create_ok := λ _, true;
  use_database_ok := λ _, true;
  use_schema_ok := λ _, true;
  duckdb_connect_ok := true;
  scandir := λ d, if bool_decide (d = "data") then entries else [];
  lexists := λ _, false;
  isdir := λ _, false;
  expand_dirs := λ _, [];
  create_stmt_ok := λ _ _, true;
  read_csv_auto := rows;
  show_tables_ok := true;
  to_arrow_table_ok := λ _, true;
  create_dataframe_ok := λ _, true;
  save_as_table_ok := λ _, true;
  session_close_ok := false;
  con_close_ok := true;
|}.

(** The same world as [close_fails], except that [use_database] raises
    too. *)
Definition no_database (entries : list string) (rows : string → option Data) : World := {|
  session_create_ok := λ _, true;
  use_database_ok := λ _, false;
  use_schema_ok := λ _, true;
  duckdb_connect_ok := true;
  scandir := λ d, if bool_decide (d = "data") then entries else [];
  lexists := λ _, false;
  isdir := λ _, false;
  expand_dirs := λ _, [];
  create_stmt_ok := λ _ _, true;
  read_csv_auto := rows;
  show_tables_ok := true;
  to_arrow_table_ok := λ _, true;
  create_dataframe_ok := λ _, true;
  save_as_table_ok := λ _, true;
  session_close_ok := false;
  con_close_ok := true;
|}.

(** File contents: one row per file, holding the path; a path that ends
    in [bad.csv] does not read as CSV. *)
Definition rows_of (path : string) : option Data :=
  if bool_decide (PosixPath.basename path = "bad.csv") then None
  else Some [[path]].

(** The directory and target used in the examples. *)
Definition example_run (w : World) : Deployer.Run * Deployer.Res unit :=
  Deployer.run w "data" "REPORTING_DB" "FINANCE" "my_prod_connection" ∅.

End Scenario.

(** ** The two scripts

    [main_script.py] and the [if __name__ == '__main__'] block of
    [snowflake_deployer.py] call the function and print a line that depends
    on what it returns.  Neither catches an exception: one that leaves the
    function ends the script. *)

Module Scripts.

(** The lines the scripts print themselves. *)
Inductive Line : Type :=
| LineStartingDeployment (source_data_dir : string)
| LineEtlCompleted
| LineEtlError
| LineTestMode
| LineTestDirNotFound (test_csv_dir : string)
| LinePleaseCreate
| LineTestCompleted
| LineTestFailed.

(** What a script does, in order: the lines it prints, its call of
    [os.path.isdir], and the calls made inside the function. *)
Inductive Event : Type :=
| Printed (l : Line)
| IsDir (path : string)
| Deploy (c : Deployer.Call).

(** How a script ends: it runs to its last line, or an exception leaves
    it. *)
Inductive Exit : Type := Finished | Uncaught.

Record ScriptRun : Type := {
  final_warehouse : gmap (string * string * string) Data;
  events : list Event;
  exit : Exit;
}.

(** [snowflake_deployer.py], line 10: the default of the fourth
    parameter. *)
Definition default_connection_name : string := "cursor-pat".


(** [snowflake_deployer.py], lines 90-92 *)
Definition TEST_CSV_DIR : string := "data".
Definition TEST_SF_DATABASE : string := "UTILITY_ANALYTICS".
Definition TEST_SF_SCHEMA : string := "CALL_CENTER".

(** [x = deploy_csvs_to_snowflake(...)] followed by
    [if x: print(yes) else: print(no)], after the events [before].  A
    function that fell off its end would return [None], which is falsy. *)
Definition call_and_report (w : World)
    (dir db sc conn : string) (yes no : Line) (before : list Event)
    (wh : gmap (string * string * string) Data) : ScriptRun :=
  let r := Deployer.run w dir db sc conn wh in
  let ev := before ++ (Deploy <$> Deployer.trace r.1) in
  match r.2 with
  | Deployer.Returned true =>
      {| final_warehouse := Deployer.warehouse r.1;
         events := ev ++ [Printed yes]; exit := Finished |}
  | Deployer.Returned false | Deployer.Normal _ =>
      {| final_warehouse := Deployer.warehouse r.1;
         events := ev ++ [Printed no]; exit := Finished |}
  | Deployer.Raised =>
      {| final_warehouse := Deployer.warehouse r.1;
         events := ev; exit := Uncaught |}
  end.


(** [snowflake_deployer.py], lines 86-109: the module run as a script. *)
Definition test_mode (w : World)
    (wh : gmap (string * string * string) Data) : ScriptRun :=
  if negb (isdir w TEST_CSV_DIR) then
    {| final_warehouse := wh;
       events := [Printed LineTestMode; IsDir TEST_CSV_DIR;
                  Printed (LineTestDirNotFound TEST_CSV_DIR);
                  Printed LinePleaseCreate];
       exit := Finished |}
  else
    call_and_report w
      TEST_CSV_DIR TEST_SF_DATABASE TEST_SF_SCHEMA default_connection_name
      LineTestCompleted LineTestFailed
      [Printed LineTestMode; IsDir TEST_CSV_DIR] wh.

End Scripts.

(** ** Further closed forms *)

Module Detail.
Import Deployer Summary.

(** No lower-case ASCII letter occurs in [s]. *)
Fixpoint no_lowercase (s : string) : bool :=
  match s with
  | "" => true
  | String a s' =>
      negb ((97 <=? N_of_ascii a) && (N_of_ascii a <=? 122))%N && no_lowercase s'
  end.


(** Every byte of [s] is an ASCII character.  On such strings [Str.upper]
    is Python's [str.upper]. *)
Fixpoint is_ascii (s : string) : bool :=
  match s with
  | "" => true
  | String a s' => (N_of_ascii a <? 128)%N && is_ascii s'
  end.









(** The calls that can be made inside the [try] block: every call except
    those of the handler, of the [finally] block and of the last line. *)
Definition in_try (c : Call) : bool :=
  match c with
  | print MsgError | print MsgSnowflakeClosed | print MsgDuckClosed
  | print MsgFinished | session_close | con_close => false
  | _ => true
  end.

(** Whatever the state it starts in, [m] only appends to the record of
    calls, and only calls that satisfy [P]. *)
Definition emits {A} (P : Call → bool) (m : Py A) : Prop :=
  ∀ s, ∃ l, trace (m s).1 = trace s ++ l ∧ forallb P l = true.

End Detail.

(** * Theorems *)

(** ** Strings and paths *)

Section StrFacts.
Import Str.

Lemma str_app_nil_l (s : string) : "" +:+ s = s.
Proof. reflexivity. Qed.

Lemma str_app_cons (a : ascii) (s t : string) : String a s +:+ t = String a (s +:+ t).
Proof. reflexivity. Qed.

Lemma str_app_nil_r (s : string) : s +:+ "" = s.
Proof. induction s as [|a s IH]; [done|]. by rewrite str_app_cons, IH. Qed.

Lemma str_app_assoc (s t u : string) : (s +:+ t) +:+ u = s +:+ (t +:+ u).
Proof. induction s as [|a s IH]; [done|]. by rewrite !str_app_cons, IH. Qed.

Lemma str_length_app (s t : string) :
  String.length (s +:+ t) = String.length s + String.length t.
Proof. induction s as [|a s IH]; [done|]. rewrite str_app_cons. simpl. by rewrite IH. Qed.

Lemma drop_app_length (x y : string) : drop (String.length x) (x +:+ y) = y.
Proof. induction x as [|a x IH]; [by destruct y|]. by rewrite str_app_cons. Qed.

Lemma take_app_length (x y : string) : take (String.length x) (x +:+ y) = x.
Proof.
  induction x as [|a x IH]; [by destruct y|].
  rewrite str_app_cons. simpl. by rewrite IH.
Qed.

Lemma rfind_succ_app (c : ascii) (x y : string) :
  rfind_succ c (x +:+ y) =
  match rfind_succ c y with
  | 0 => rfind_succ c x
  | S k => String.length x + S k
  end.
Proof.
  induction x as [|a x IH].
  { rewrite str_app_nil_l. by destruct (rfind_succ c y). }
  rewrite str_app_cons. simpl. rewrite IH.
  destruct (rfind_succ c y); [done|].
  by rewrite Nat.add_succ_r.
Qed.

Lemma rfind_succ_endswith (x : string) (c : ascii) :
  endswith_char x c = true → rfind_succ c x = String.length x.
Proof.
  induction x as [|a x IH]; [done|].
  simpl. destruct x as [|b x].
  - intros ->. done.
  - intros H. by rewrite (IH H).
Qed.

Lemma occurs_char_rfind (c : ascii) (s : string) :
  occurs (String c "") s = false → rfind_succ c s = 0.
Proof.
  induction s as [|a s IH]; [done|].
  simpl. destruct (ascii_dec c a) as [->|Hne]; [by destruct s|].
  simpl. intros H. rewrite (IH H).
  destruct (Ascii.eqb_spec a c); [congruence|done].
Qed.

Lemma endswith_char_snoc (x : string) (c : ascii) :
  endswith_char (x +:+ String c "") c = true.
Proof.
  induction x as [|a x IH]; [apply Ascii.eqb_refl|].
  rewrite str_app_cons. simpl.
  destruct (x +:+ String c "") eqn:E; [by destruct x|done].
Qed.

(** The base name of a joined path is the entry that was joined on, when
    the entry has no separator (no directory entry has one). *)
Lemma basename_join (d name : string) :
  occurs "/" name = false → PosixPath.basename (PosixPath.join d name) = name.
Proof.
  intros Hname. pose proof (occurs_char_rfind _ _ Hname) as Hr.
  change "/"%char with PosixPath.sep in Hr.
  assert (∀ x, PosixPath.basename (x +:+ name) =
               drop (rfind_succ PosixPath.sep x) (x +:+ name)) as Hbase.
  { intros x. unfold PosixPath.basename. by rewrite rfind_succ_app, Hr. }
  unfold PosixPath.join.
  destruct (startswith name "/") eqn:Hs.
  { unfold startswith in Hs. destruct name; simpl in *; [done|].
    by rewrite Hs in Hname. }
  destruct d as [|a d].
  { unfold PosixPath.basename. by rewrite Hr. }
  destruct (endswith_char (String a d) PosixPath.sep) eqn:He.
  - rewrite Hbase, (rfind_succ_endswith _ _ He). apply drop_app_length.
  - rewrite <- str_app_assoc, Hbase.
    rewrite (rfind_succ_endswith _ _ (endswith_char_snoc _ _)).
    apply drop_app_length.
Qed.

End StrFacts.

(** ** Enumeration *)

Section GlobFacts.
Import Str Summary.

Lemma literal_csv (name : string) :
  Fnmatch.fnmatchcase_go ".csv" name = true ↔ name = ".csv".
Proof.
  destruct name as [|a1 [|a2 [|a3 [|a4 [|a5 name]]]]]; simpl; try done.
  - by rewrite andb_false_r.
  - by rewrite !andb_false_r.
  - by rewrite !andb_false_r.
  - rewrite !andb_true_iff, !Ascii.eqb_eq. split.
    + by intros (-> & -> & -> & -> & _).
    + intros [= -> -> -> ->]. done.
  - rewrite !andb_false_r. split; [done|]. by intros [= _ _ _ _ ?].
Qed.

Lemma star_csv_unfold (name : string) :
  Fnmatch.fnmatchcase_go "*.csv" name =
  Fnmatch.fnmatchcase_go ".csv" name ||
  match name with
  | "" => false
  | String _ name' => Fnmatch.fnmatchcase_go "*.csv" name'
  end.
Proof. by destruct name. Qed.

(** [*.csv] matches exactly the names that end in [.csv]. *)
Lemma fnmatchcase_star_csv (name : string) :
  Fnmatch.fnmatchcase name "*.csv" = true ↔ ∃ stem, name = stem +:+ ".csv".
Proof.
  unfold Fnmatch.fnmatchcase. split.
  - induction name as [|a name IH]; rewrite star_csv_unfold.
    + by rewrite orb_false_r; intros ?%literal_csv.
    + intros [H|H]%orb_true_iff.
      * exists "". by apply literal_csv in H.
      * destruct (IH H) as [stem ->]. by exists (String a stem).
  - intros [stem ->]. induction stem as [|a stem IH]; rewrite star_csv_unfold.
    + done.
    + rewrite str_app_cons, IH. apply orb_true_r.
Qed.

Lemma has_magic_app (x y : string) :
  Glob.has_magic (x +:+ y) = Glob.has_magic x || Glob.has_magic y.
Proof.
  induction x as [|a x IH]; [done|].
  rewrite str_app_cons. simpl. rewrite IH. by rewrite !orb_assoc.
Qed.

Lemma has_magic_join (d : string) : Glob.has_magic (PosixPath.join d "*.csv") = true.
Proof.
  unfold PosixPath.join. simpl. destruct d as [|a d]; [done|].
  destruct (endswith_char _ _); rewrite !has_magic_app; simpl;
    by rewrite ?orb_true_r.
Qed.

Lemma split_join_tail (d : string) :
  (PosixPath.split (PosixPath.join d "*.csv")).2 = "*.csv".
Proof. apply (basename_join d "*.csv"). done. Qed.

Lemma join_empty (name : string) : PosixPath.join "" name = name.
Proof. unfold PosixPath.join. by destruct (startswith name "/"). Qed.

Lemma filter_filter {A} (f g : A → bool) (l : list A) :
  List.filter f (List.filter g l) = List.filter (λ x, g x && f x) l.
Proof.
  induction l as [|x l IH]; [done|].
  simpl. destruct (g x); simpl; [|done]. destruct (f x); by rewrite IH.
Qed.

Lemma glob1_csv (w : World) (d : string) :
  Glob._glob1 w d "*.csv" = List.filter csv_match (Glob._listdir w d).
Proof. unfold Glob._glob1, Fnmatch.filter. simpl. apply filter_filter. Qed.

(** Line 44 in closed form: the entries of the listed directories that
    are not hidden and end in [.csv], each joined to its directory. *)
Lemma csv_files_eq (w : World) (csv_directory : string) :
  csv_files w csv_directory =
  d ← csv_dirs w csv_directory;
  PosixPath.join d <$> List.filter csv_match (Glob._listdir w d).
Proof.
  unfold csv_files, csv_dirs, Glob.glob.
  pose proof (split_join_tail csv_directory) as Htail.
  destruct (PosixPath.split (PosixPath.join csv_directory "*.csv")) as [dirname basename].
  simpl in Htail. subst basename. rewrite has_magic_join. simpl.
  destruct dirname as [|a dirname].
  - rewrite glob1_csv. simpl. rewrite app_nil_r.
    induction (List.filter csv_match _) as [|x l IH]; [done|].
    rewrite fmap_cons, join_empty. by f_equal.
  - apply list_bind_ext; [|done]. intros d. by rewrite glob1_csv.
Qed.

End GlobFacts.

(** ** Table names *)

Section NameFacts.
Import Str Summary Deployer.

Lemma prefix_cons (a b : ascii) (s t : string) :
  String.prefix (String a s) (String b t) = Ascii.eqb a b && String.prefix s t.
Proof.
  cbn [String.prefix].
  destruct (ascii_dec a b) as [->|Hne]; [by rewrite Ascii.eqb_refl|].
  by destruct (Ascii.eqb_spec a b).
Qed.

Lemma prefix_csv_boundary (s : string) :
  s ≠ "" → String.prefix ".csv" s = false →
  String.prefix ".csv" (s +:+ ".csv") = false.
Proof.
  intros Hne H.
  destruct s as [|a s]; [done|].
  rewrite str_app_cons, prefix_cons in *.
  destruct (Ascii.eqb "." a); [|done].
  destruct s as [|b s]; [done|].
  rewrite str_app_cons, prefix_cons in *.
  destruct (Ascii.eqb "c" b); [|done].
  destruct s as [|c s]; [done|].
  rewrite str_app_cons, prefix_cons in *.
  destruct (Ascii.eqb "s" c); [|done].
  destruct s as [|d s]; [done|].
  rewrite str_app_cons, prefix_cons in *.
  destruct (Ascii.eqb "v" d); [|done].
  by destruct s.
Qed.

(** Where [.csv] occurs only as the trailing extension, [replace] removes
    just that. *)
Lemma replace_csv_stem (stem : string) :
  occurs ".csv" stem = false →
  replace (stem +:+ ".csv") ".csv" "" = stem.
Proof.
  unfold replace. induction stem as [|a stem IH]; [done|].
  intros [Hp Ho]%orb_false_iff.
  rewrite str_app_cons.
  change (replace_scan ".csv" "" 0 (String a (stem +:+ ".csv")))
    with (if String.prefix ".csv" (String a (stem +:+ ".csv"))
          then "" +:+ replace_scan ".csv" "" 3 (stem +:+ ".csv")
          else String a (replace_scan ".csv" "" 0 (stem +:+ ".csv"))).
  rewrite <- str_app_cons, (prefix_csv_boundary (String a stem)) by done.
  by rewrite (IH Ho).
Qed.



End NameFacts.

(** ** The state monad *)

Section PyFacts.
Import Summary Deployer.

Lemma bind_run {A B} (m : Py A) (k : A → Py B) (s : Run) :
  (m ≫= k) s =
  match m s with
  | (s', Normal a) => k a s'
  | (s', Returned b) => (s', Returned b)
  | (s', Raised) => (s', Raised)
  end.
Proof. reflexivity. Qed.

Lemma forallb_within_mono (n m : nat) (l : list Call) :
  n ≤ m → forallb (within n) l = true → forallb (within m) l = true.
Proof.
  intros Hnm. rewrite !forallb_forall. intros H c Hc.
  specialize (H c Hc). unfold within in *.
  apply bool_decide_eq_true in H. apply bool_decide_eq_true. lia.
Qed.

Ltac py_unfold :=
  cbv [mbind Py_bind mret Py_ret call guard get raise return_
       assign_con assign_session put_warehouse].

Ltac py_finish :=
  eexists _, _; split; [reflexivity|]; simpl;
  rewrite <- ?(assoc_L (++)); repeat split; reflexivity.

(** One round of the first loop. *)
Lemma load_csv_run (w : World) (f : string) (s : Run) (duck : DuckDB) :
  con s = Some duck →
  ∃ s' l,
    load_csv w f s =
      (s', match load_one w f duck with
           | Some _ => Normal ()
           | None => Raised
           end)
    ∧ trace s' = trace s ++ l
    ∧ forallb (within 3) l = true
    ∧ warehouse s' = warehouse s
    ∧ session s' = session s
    ∧ con s' = Some (default duck (load_one w f duck)).
Proof.
  intros Hcon. unfold load_csv, do_execute_create, load_one. py_unfold.
  simpl. rewrite Hcon.
  destruct (create_stmt_ok w _ f); simpl; [|py_finish].
  destruct (read_csv_auto w f) as [rows|]; simpl; [|py_finish].
  case_bool_decide; simpl; py_finish.
Qed.

(** The first loop. *)
Lemma load_loop (w : World) (files : list string) :
  ∀ (s : Run) (duck : DuckDB),
    con s = Some duck →
    ∃ s' l,
      for_each files (load_csv w) s =
        (s', match load_all w files duck with
             | Some _ => Normal ()
             | None => Raised
             end)
      ∧ trace s' = trace s ++ l
      ∧ forallb (within 3) l = true
      ∧ warehouse s' = warehouse s
      ∧ session s' = session s
      ∧ is_Some (con s')
      ∧ (∀ d, load_all w files duck = Some d → con s' = Some d).
Proof.
  induction files as [|f files IH]; intros s duck Hcon.
  { exists s, []. rewrite app_nil_r. simpl. naive_solver. }
  destruct (load_csv_run w f s duck Hcon)
    as (s1 & l1 & Hrun & Htr & Hl1 & Hwh & Hse & Hco).
  simpl. rewrite bind_run, Hrun.
  destruct (load_one w f duck) as [duck'|]; simpl in Hco.
  - destruct (IH s1 duck' Hco) as (s2 & l2 & Hrun2 & Htr2 & Hl2 & Hwh2 & Hse2 & Hco2).
    exists s2, (l1 ++ l2). rewrite Hrun2, Htr2, Htr, Hwh2, Hse2, forallb_app, Hl1, Hl2.
    by rewrite (assoc_L (++)).
  - exists s1, l1. rewrite Hco. naive_solver.
Qed.

(** One round of the second loop. *)
Lemma deploy_table_run (w : World) (n : string) (s : Run)
    (duck : DuckDB) (ss : Session) :
  con s = Some duck → session s = Some ss →
  ∃ s' l,
    deploy_table w n s =
      (s', match deploy_one w duck n with
           | Some _ => Normal ()
           | None => Raised
           end)
    ∧ trace s' = trace s ++ l
    ∧ forallb (within 5) l = true
    ∧ warehouse s' =
        match deploy_one w duck n with
        | Some rows => <[(database ss, schema ss, n) := rows]> (warehouse s)
        | None => warehouse s
        end
    ∧ session s' = session s
    ∧ con s' = con s.
Proof.
  intros Hcon Hse.
  unfold deploy_table, do_to_arrow_table, do_create_dataframe,
    do_save_as_table, deploy_one.
  py_unfold. simpl. rewrite Hcon.
  destruct (to_arrow_table_ok w n); simpl; [|py_finish].
  destruct (list_find _ duck) as [[i [n' rows]]|]; simpl; [|py_finish].
  destruct (create_dataframe_ok w rows); simpl; [|py_finish].
  destruct (save_as_table_ok w n); simpl; [|py_finish].
  rewrite Hse. simpl. py_finish.
Qed.

(** The second loop. *)
Lemma deploy_loop (w : World) (duck : DuckDB) (ss : Session) (names : list string) :
  ∀ s : Run,
    con s = Some duck → session s = Some ss →
    ∃ s' l,
      for_each names (deploy_table w) s =
        (s', if (deploy_all w duck names).2 then Normal () else Raised)
      ∧ trace s' = trace s ++ l
      ∧ forallb (within 5) l = true
      ∧ warehouse s' =
          apply_writes (database ss) (schema ss)
            (deploy_all w duck names).1 (warehouse s)
      ∧ session s' = session s
      ∧ con s' = con s.
Proof.
  induction names as [|n names IH]; intros s Hcon Hse.
  { exists s, []. by rewrite app_nil_r. }
  destruct (deploy_table_run w n s duck ss Hcon Hse)
    as (s1 & l1 & Hrun & Htr & Hl1 & Hwh & Hse1 & Hco1).
  simpl. rewrite bind_run, Hrun.
  destruct (deploy_one w duck n) as [rows|].
  - destruct (IH s1) as (s2 & l2 & Hrun2 & Htr2 & Hl2 & Hwh2 & Hse2 & Hco2);
      [congruence..|].
    exists s2, (l1 ++ l2).
    rewrite Hrun2, Htr2, Htr, Hwh2, Hwh, Hse2, Hco2, forallb_app, Hl1, Hl2.
    destruct (deploy_all w duck names) as [ws ok]. simpl.
    by rewrite (assoc_L (++)).
  - exists s1, l1. by rewrite Hwh.
Qed.

(** Lines 57-66: listing the tables and the second loop. *)
Lemma publish_spec (w : World) (duck : DuckDB) (ss : Session) (s : Run) :
  con s = Some duck → session s = Some ss →
  let names := merge_sort String.le (duck.*1) in
  ∃ s' l,
    (duckdb_tables ← do_show_tables w;
     call (print (MsgTables duckdb_tables)) ;;
     for_each duckdb_tables (deploy_table w)) s =
      (s', if show_tables_ok w && (deploy_all w duck names).2
           then Normal () else Raised)
    ∧ trace s' = trace s ++ l
    ∧ forallb (within (if show_tables_ok w then 5 else 4)) l = true
    ∧ warehouse s' =
        apply_writes (database ss) (schema ss)
          (if show_tables_ok w then (deploy_all w duck names).1 else [])
          (warehouse s)
    ∧ session s' = session s
    ∧ con s' = con s.
Proof.
  intros Hco Hse names. unfold do_show_tables. py_unfold.
  cbn -[for_each deploy_all merge_sort].
  destruct (show_tables_ok w); cbn -[for_each deploy_all merge_sort];
    [|py_finish].
  rewrite Hco. fold names.
  match goal with
  | |- context [for_each names (deploy_table w) ?st] =>
      destruct (deploy_loop w duck ss names st eq_refl Hse)
        as (s2 & l2 & Hrun & Htr & Hl2 & Hwh & Hse2 & Hco2)
  end.
  simpl in Htr, Hwh, Hse2, Hco2.
  exists s2, ([con_execute_show_tables; print (MsgTables names)] ++ l2).
  rewrite Hrun, Htr, Hwh, Hse2, Hco2, forallb_app, Hl2. simpl.
  by rewrite <- !(assoc_L (++)).
Qed.

Ltac try_finish :=
  eexists _, _; split; [reflexivity|]; simpl;
  rewrite <- ?(assoc_L (++)); split; [reflexivity|];
  repeat split; try done;
  try (case_decide; [first [lia | by eauto] | first [done | lia]]).

(** The [try] block, from a state in which neither variable is set. *)
Lemma try_body_spec (w : World) (dir db sc conn : string) (s : Run) :
  session s = None → con s = None →
  ∃ s1 l,
    try_body w dir db sc conn s =
      (s1, match stops_at w dir db sc conn with
           | PDone => Normal ()
           | PNoFiles => Returned false
           | _ => Raised
           end)
    ∧ trace s1 = trace s ++ l
    ∧ forallb (within (phase_rank (stops_at w dir db sc conn))) l = true
    ∧ warehouse s1 = apply_writes db sc (writes w dir db sc conn) (warehouse s)
    ∧ session s1 =
        (if session_create_ok w conn
         then Some {| database := if use_database_ok w db then db else "";
                      schema := if use_database_ok w db && use_schema_ok w sc
                                then sc else "" |}
         else None)
    ∧ (if decide (2 ≤ phase_rank (stops_at w dir db sc conn))
       then is_Some (con s1) else con s1 = None)
    ∧ (stops_at w dir db sc conn = PNoFiles → print (MsgNoCsvFiles dir) ∈ l).
Proof.
  intros Hse Hco.
  unfold try_body, do_session_create, do_use_database, do_use_schema,
    do_duckdb_connect, do_glob, writes, stops_at, connect_ok.
  change (Glob.glob w (PosixPath.join dir "*.csv")) with (csv_files w dir).
  generalize (csv_files w dir). intros files.
  py_unfold. cbn -[for_each load_all deploy_all merge_sort].
  destruct (session_create_ok w conn); cbn -[for_each load_all deploy_all merge_sort];
    [|rewrite ?Hse, ?Hco; try_finish].
  destruct (use_database_ok w db); cbn -[for_each load_all deploy_all merge_sort];
    [|rewrite ?Hco; try_finish].
  destruct (use_schema_ok w sc); cbn -[for_each load_all deploy_all merge_sort];
    [|rewrite ?Hco; try_finish].
  destruct (duckdb_connect_ok w); cbn -[for_each load_all deploy_all merge_sort];
    [|rewrite ?Hco; try_finish].
  destruct files as [|f fs]; cbn -[for_each load_all deploy_all merge_sort].
  { eexists _, _. split; [reflexivity|]. simpl.
    rewrite <- !(assoc_L (++)). split; [reflexivity|].
    repeat split; try done. intros _.
    do 8 (apply elem_of_app; right). by apply list_elem_of_singleton. }
  match goal with
  | |- context [for_each (f :: fs) (load_csv w) ?st] =>
      destruct (load_loop w (f :: fs) st [] eq_refl)
        as (s1 & l1 & Hrun & Htr & Hl1 & Hwh & Hse1 & Hco1 & Hduck)
  end.
  rewrite Hrun. simpl in Htr, Hwh, Hse1.
  rewrite <- !(assoc_L (++)) in Htr.
  destruct (load_all w (f :: fs) []) as [duck|].
  2: { eexists s1, _. split; [reflexivity|]. split; [exact Htr|].
       cbn [phase_rank].
       rewrite !forallb_app, (forallb_within_mono 3 3 l1) by done.
       repeat split; try done. }
  specialize (Hduck duck eq_refl).
  destruct (publish_spec w duck _ s1 Hduck Hse1)
    as (s2 & l2 & Hrun2 & Htr2 & Hl2 & Hwh2 & Hse2 & Hco2).
  cbv [mbind Py_bind call] in Hrun2. rewrite Hrun2.
  rewrite Htr, <- !(assoc_L (++)) in Htr2.
  rewrite Hwh in Hwh2. rewrite Hse1 in Hse2. rewrite Hduck in Hco2.
  cbn [database schema] in Hwh2.
  destruct (show_tables_ok w); cbn [andb negb].
  2: { eexists s2, _. split; [reflexivity|]. split; [exact Htr2|].
       cbn [phase_rank].
       rewrite !forallb_app, (forallb_within_mono 3 4 l1), Hl2 by (done || lia).
       rewrite Hco2. repeat split; try done. case_decide; [by eauto|lia]. }
  destruct (deploy_all w duck (merge_sort String.le duck.*1)) as [ws ok].
  cbn [fst snd] in *.
  eexists s2, _. split; [by destruct ok|]. split; [exact Htr2|].
  rewrite Hco2.
  destruct ok; cbn [phase_rank];
    rewrite !forallb_app, (forallb_within_mono 3 5 l1), Hl2 by (done || lia);
    repeat split; try done; (case_decide; [by eauto|lia]).
Qed.

(** The [finally] block. *)
Lemma finally_run (w : World) (s : Run) :
  let hs := bool_decide (is_Some (session s)) in
  let hc := bool_decide (is_Some (con s)) in
  finally_body w s =
    ({| warehouse := warehouse s; session := session s; con := con s;
        trace := trace s ++ finally_calls w hs hc |},
     if finally_raises w hs hc then Raised else Normal ()).
Proof.
  destruct s as [wh [ss|] [duck|] tr];
    unfold finally_body, do_session_close, do_con_close,
      finally_calls, finally_raises;
    py_unfold; simpl;
    destruct (session_close_ok w), (con_close_ok w); simpl;
    rewrite <- ?(assoc_L (++)), ?app_nil_r; reflexivity.
Qed.

(** A whole run. *)
Lemma run_spec (w : World) (dir db sc conn : string)
    (wh : gmap (string * string * string) Data) :
  let ph := stops_at w dir db sc conn in
  let hs := session_create_ok w conn in
  let hc := bool_decide (2 ≤ phase_rank ph) in
  ∃ s l,
    run w dir db sc conn wh =
      (s, if finally_raises w hs hc then Raised
          else Returned (steps_ok w dir db sc conn))
    ∧ trace s =
        [print MsgStarting] ++ l
        ++ match ph with
           | PDone | PNoFiles => []
           | _ => [print MsgError]
           end
        ++ finally_calls w hs hc
        ++ (if negb (finally_raises w hs hc) && steps_ok w dir db sc conn
            then [print MsgFinished] else [])
    ∧ forallb (within (phase_rank ph)) l = true
    ∧ warehouse s = apply_writes db sc (writes w dir db sc conn) wh
    ∧ bool_decide (is_Some (session s)) = hs
    ∧ bool_decide (is_Some (con s)) = hc
    ∧ (ph = PNoFiles → print (MsgNoCsvFiles dir) ∈ l).
Proof.
  intros ph hs hc. unfold run, deploy_csvs_to_snowflake, steps_ok.
  fold ph.
  set (s0 := {| warehouse := wh; session := None; con := None;
                trace := [print MsgStarting] |}).
  destruct (try_body_spec w dir db sc conn s0 eq_refl eq_refl)
    as (s1 & l & Hrun & Htr & Hl & Hwh & Hse & Hco & Hno).
  fold ph in Hrun, Hl, Hco, Hno.
  assert (bool_decide (is_Some (session s1)) = hs) as Hhs.
  { rewrite Hse. unfold hs. by destruct (session_create_ok w conn). }
  assert (bool_decide (is_Some (con s1)) = hc) as Hhc.
  { unfold hc. case_decide.
    - rewrite bool_decide_eq_true_2 by done. by rewrite bool_decide_eq_true_2.
    - rewrite Hco.
      by rewrite !bool_decide_eq_false_2 by first [done | by intros [??]]. }
  cbv [mbind Py_bind call assign_session assign_con try_except_finally].
  cbn [warehouse session con trace app]. fold s0. rewrite Hrun.
  assert (∀ t, finally_body w
            {| warehouse := warehouse s1; session := session s1;
               con := con s1; trace := t |} =
          ({| warehouse := warehouse s1; session := session s1;
              con := con s1; trace := t ++ finally_calls w hs hc |},
           if finally_raises w hs hc then Raised else Normal ())) as Hfin.
  { intros t. rewrite finally_run. cbn [warehouse session con trace].
    by rewrite Hhs, Hhc. }
  assert (finally_body w s1 =
          ({| warehouse := warehouse s1; session := session s1;
              con := con s1; trace := trace s1 ++ finally_calls w hs hc |},
           if finally_raises w hs hc then Raised else Normal ())) as Hfin1.
  { rewrite finally_run. by rewrite Hhs, Hhc. }
  clearbody hs hc. clearbody ph.
  destruct ph; unfold except_body; cbv [mbind Py_bind call return_];
    rewrite ?Hfin, ?Hfin1;
    destruct (finally_raises w hs hc);
    cbn [warehouse session con trace negb andb];
    (eexists _, l; split; [reflexivity|];
     cbn [warehouse session con trace]; rewrite Htr;
     repeat split; try done;
     [cbn [trace s0]; rewrite <- ?(assoc_L (++)), ?app_nil_r; reflexivity]).
Qed.

End PyFacts.

(** ** Runs *)

Section RunFacts.
Import Summary Deployer.
Context (w : World) (dir db sc conn : string)
        (wh : gmap (string * string * string) Data).

Let r := run w dir db sc conn wh.
Let ph := stops_at w dir db sc conn.
Let hs := session_create_ok w conn.
Let hc := bool_decide (2 ≤ phase_rank ph).

Lemma run_result :
  r.2 = if finally_raises w hs hc then Raised
        else Returned (steps_ok w dir db sc conn).
Proof.
  destruct (run_spec w dir db sc conn wh) as (s & l & Hrun & _).
  unfold r. by rewrite Hrun.
Qed.

Lemma run_warehouse :
  warehouse r.1 = apply_writes db sc (writes w dir db sc conn) wh.
Proof.
  destruct (run_spec w dir db sc conn wh) as (s & l & Hrun & _ & _ & Hwh & _).
  unfold r. by rewrite Hrun.
Qed.

Lemma run_session : bool_decide (is_Some (session r.1)) = hs.
Proof.
  destruct (run_spec w dir db sc conn wh)
    as (s & l & Hrun & _ & _ & _ & Hse & _).
  unfold r. by rewrite Hrun.
Qed.

Lemma run_con : bool_decide (is_Some (con r.1)) = hc.
Proof.
  destruct (run_spec w dir db sc conn wh)
    as (s & l & Hrun & _ & _ & _ & _ & Hco & _).
  unfold r. by rewrite Hrun.
Qed.

Lemma in_finally_calls (c : Call) (a b : bool) :
  c ∈ finally_calls w a b →
  c = session_close ∨ c = con_close
  ∨ c = print MsgSnowflakeClosed ∨ c = print MsgDuckClosed.
Proof.
  unfold finally_calls.
  destruct a, b, (session_close_ok w), (con_close_ok w); simpl;
    rewrite ?elem_of_cons, ?elem_of_nil; intuition auto.
Qed.

(** A call of a run was made by a step the run reached, or by the
    cleanup. *)
Lemma run_trace_rank (c : Call) :
  c ∈ trace r.1 →
  call_rank c ≤ phase_rank ph ∨ c = session_close ∨ c = con_close.
Proof.
  destruct (run_spec w dir db sc conn wh)
    as (s & l & Hrun & Htr & Hl & _).
  unfold r. rewrite Hrun. simpl. rewrite Htr.
  rewrite !elem_of_app, list_elem_of_singleton.
  intros [->|[Hc|[Hc|[Hc|Hc]]]].
  - left. simpl. lia.
  - left. rewrite forallb_forall in Hl.
    apply list_elem_of_In, Hl, bool_decide_eq_true in Hc. done.
  - left. fold ph in Hc.
    destruct ph; rewrite ?list_elem_of_singleton, ?elem_of_nil in Hc;
      [subst; simpl; lia | subst; simpl; lia | done | subst; simpl; lia
      | subst; simpl; lia | subst; simpl; lia | done].
  - apply in_finally_calls in Hc as [->|[->|[->| ->]]]; auto; left; simpl; lia.
  - left. destruct (_ && _); rewrite ?list_elem_of_singleton, ?elem_of_nil in Hc;
      [subst; simpl; lia | done].
Qed.

Lemma session_close_in_finally (a b : bool) :
  session_close ∈ finally_calls w a b ↔ a = true.
Proof.
  unfold finally_calls.
  destruct a, b, (session_close_ok w), (con_close_ok w); simpl;
    rewrite ?elem_of_cons, ?elem_of_nil; intuition (auto; discriminate).
Qed.

Lemma con_close_in_finally (a b : bool) :
  con_close ∈ finally_calls w a b ↔
  b = true ∧ (a = true → session_close_ok w = true).
Proof.
  unfold finally_calls.
  destruct a, b, (session_close_ok w), (con_close_ok w); simpl;
    rewrite ?elem_of_cons, ?elem_of_nil; intuition (auto; discriminate).
Qed.

(** A cleanup call is made by the cleanup only. *)
Lemma run_cleanup_call (c : Call) :
  call_rank c = 6 →
  c ∈ trace r.1 ↔ c ∈ finally_calls w hs hc.
Proof.
  intros Hc.
  destruct (run_spec w dir db sc conn wh)
    as (s & l & Hrun & Htr & Hl & _).
  unfold r. rewrite Hrun. cbn [fst snd]. rewrite Htr.
  fold ph hs hc. rewrite !elem_of_app, list_elem_of_singleton. split.
  - intros [->|[H|[H|[H|H]]]]; [done| | |done|].
    + rewrite forallb_forall in Hl.
      apply list_elem_of_In, Hl, bool_decide_eq_true in H.
      fold ph in H. destruct ph; simpl in H; lia.
    + destruct ph; rewrite ?list_elem_of_singleton, ?elem_of_nil in H;
        by subst.
    + destruct (_ && _); rewrite ?list_elem_of_singleton, ?elem_of_nil in H;
        by subst.
  - auto.
Qed.

(** The cleanup calls of a run. *)
Lemma run_session_close :
  session_close ∈ trace r.1 ↔ is_Some (session r.1).
Proof.
  rewrite (run_cleanup_call session_close eq_refl), session_close_in_finally.
  rewrite <- run_session. apply bool_decide_eq_true.
Qed.

Lemma run_con_close :
  con_close ∈ trace r.1 ↔
  is_Some (con r.1) ∧ (is_Some (session r.1) → session_close_ok w = true).
Proof.
  rewrite (run_cleanup_call con_close eq_refl), con_close_in_finally.
  rewrite <- run_session, <- run_con. by rewrite !bool_decide_eq_true.
Qed.

End RunFacts.

(** ** The phases of a run *)

Section PhaseFacts.
Import Summary Deployer.
Context (w : World).

Lemma load_one_Some (f : string) (duck duck' : DuckDB) :
  load_one w f duck = Some duck' →
  file_loads w f = true
  ∧ (table_name_of f ∉ duck.*1)
  ∧ (∃ rows, read_csv_auto w f = Some rows
             ∧ duck' = duck ++ [(table_name_of f, rows)]).
Proof.
  unfold load_one, file_loads.
  destruct (create_stmt_ok w _ f); [|done].
  destruct (read_csv_auto w f) as [rows|]; [|done].
  case_bool_decide; [done|]. intros [= <-].
  rewrite bool_decide_eq_true_2 by eauto. eauto.
Qed.

(** A first loop that completes has created one table per file, each
    under a name that was free. *)
Lemma load_all_Some (files : list string) :
  ∀ duck duck',
    load_all w files duck = Some duck' →
    duck'.*1 = duck.*1 ++ (table_name_of <$> files)
    ∧ (NoDup (duck.*1) → NoDup (duck'.*1))
    ∧ (∀ f, f ∈ files → file_loads w f = true).
Proof.
  induction files as [|f files IH]; intros duck duck'; simpl.
  { intros [= <-]. rewrite app_nil_r. split_and!; [done..|].
    intros f Hf. by apply elem_of_nil in Hf. }
  destruct (load_one w f duck) as [duck1|] eqn:Hone; [|done].
  intros Hall. apply load_one_Some in Hone as (Hf & Hfree & rows & Hrows & ->).
  destruct (IH _ _ Hall) as (Hnames & Hnodup & Hloads).
  rewrite fmap_app in Hnames, Hnodup. simpl in Hnames, Hnodup.
  split_and!.
  - by rewrite Hnames, <- (assoc_L (++)).
  - intros Hd. apply Hnodup. apply NoDup_app. split_and!; [done| |].
    + intros x Hx ->%list_elem_of_singleton. done.
    + apply NoDup_singleton.
  - intros f' [->|Hf']%elem_of_cons; auto.
Qed.

Lemma load_all_NoDup (files : list string) (duck : DuckDB) :
  load_all w files [] = Some duck → NoDup (table_name_of <$> files).
Proof.
  intros H. apply load_all_Some in H as (Hnames & Hnodup & _).
  simpl in Hnames. rewrite <- Hnames. apply Hnodup, NoDup_nil_2.
Qed.


(** A matched file that does not load makes the first loop raise. *)
Lemma load_all_bad_file (files : list string) (f : string) :
  f ∈ files → file_loads w f = false → load_all w files [] = None.
Proof.
  intros Hf Hbad.
  destruct (load_all w files []) as [duck|] eqn:Hall; [|done].
  apply load_all_Some in Hall as (_ & _ & Hloads).
  rewrite (Hloads f Hf) in Hbad. done.
Qed.

Context (dir db sc conn : string).

Lemma stops_at_connect :
  connect_ok w db sc conn = false → stops_at w dir db sc conn = PConnect.
Proof. unfold stops_at. by intros ->. Qed.

Lemma stops_at_no_files :
  csv_files w dir = [] → phase_rank (stops_at w dir db sc conn) ≤ 2.
Proof.
  unfold stops_at. intros ->.
  destruct (connect_ok w db sc conn), (duckdb_connect_ok w); simpl; lia.
Qed.

Lemma stops_at_load_fails :
  load_all w (csv_files w dir) [] = None →
  phase_rank (stops_at w dir db sc conn) ≤ 3.
Proof.
  unfold stops_at. intros Hload.
  destruct (csv_files w dir) as [|f fs]; [|rewrite Hload];
    destruct (connect_ok w db sc conn), (duckdb_connect_ok w);
    cbn [negb phase_rank]; lia.
Qed.

Lemma writes_early :
  phase_rank (stops_at w dir db sc conn) < 5 → writes w dir db sc conn = [].
Proof. unfold writes. intros H. case_decide; [lia|done]. Qed.

Lemma steps_ok_early :
  phase_rank (stops_at w dir db sc conn) < 5 →
  steps_ok w dir db sc conn = false.
Proof.
  unfold steps_ok. intros H. apply bool_decide_eq_false. intros Heq.
  rewrite Heq in H. simpl in H. lia.
Qed.

(** What holds of every run that stops before the second loop. *)
Lemma run_stops_early (wh : gmap (string * string * string) Data) (n : nat) :
  phase_rank (stops_at w dir db sc conn) ≤ n → n < 5 →
  let r := run w dir db sc conn wh in
  warehouse r.1 = wh
  ∧ (∀ c, n < call_rank c → call_rank c < 6 → c ∉ trace r.1)
  ∧ r.2 ≠ Returned true
  ∧ (session_close_ok w = true → con_close_ok w = true →
     r.2 = Returned false).
Proof.
  intros Hph Hn r. unfold r. split_and!.
  - rewrite run_warehouse, writes_early by lia. done.
  - intros c Hlo Hhi Hc.
    apply run_trace_rank in Hc as [Hc|[->| ->]]; simpl in *; lia.
  - rewrite run_result, steps_ok_early by lia. by destruct (finally_raises _ _ _).
  - intros Hs Hc. rewrite run_result, steps_ok_early by lia.
    unfold finally_raises. rewrite Hs, Hc. by rewrite !andb_false_r.
Qed.

End PhaseFacts.

(** ** Writes to the warehouse *)

Section WriteFacts.
Import Summary Deployer.
Context (db sc : string).

Local Abbreviation key := (λ n : string, (db, sc, n)).

Lemma apply_writes_cons (t : string * Data) (ws : list (string * Data))
    (wh : gmap (string * string * string) Data) :
  apply_writes db sc (t :: ws) wh =
  apply_writes db sc ws (<[key t.1 := t.2]> wh).
Proof. reflexivity. Qed.

(** Tables that are not written keep their contents. *)
Lemma apply_writes_other (ws : list (string * Data)) :
  ∀ (wh : gmap (string * string * string) Data) (k : string * string * string),
    (∀ n, n ∈ ws.*1 → k ≠ key n) →
    apply_writes db sc ws wh !! k = wh !! k.
Proof.
  induction ws as [|t ws IH]; intros wh k Hk; [done|].
  rewrite apply_writes_cons, IH.
  - apply lookup_insert_ne. intros Heq. apply (Hk t.1); [|done].
    rewrite fmap_cons. apply elem_of_cons. by left.
  - intros n Hn. apply Hk. rewrite fmap_cons. apply elem_of_cons. by right.
Qed.

(** A table written once holds the rows written. *)
Lemma apply_writes_written (ws : list (string * Data)) :
  ∀ (wh : gmap (string * string * string) Data) (n : string) (rows : Data),
    NoDup (ws.*1) → (n, rows) ∈ ws →
    apply_writes db sc ws wh !! key n = Some rows.
Proof.
  induction ws as [|t ws IH]; intros wh n rows Hnd Hin.
  { by apply elem_of_nil in Hin. }
  rewrite fmap_cons in Hnd. apply NoDup_cons in Hnd as [Hfresh Hnd].
  rewrite apply_writes_cons.
  apply elem_of_cons in Hin as [<-|Hin]; [|by apply IH].
  rewrite apply_writes_other; [apply lookup_insert_eq|].
  intros n' Hn' [= ->]. done.
Qed.


(** Writing the same tables a second time changes nothing: a write
    replaces the table. *)
Lemma apply_writes_twice (ws : list (string * Data))
    (wh : gmap (string * string * string) Data) :
  apply_writes db sc ws (apply_writes db sc ws wh) = apply_writes db sc ws wh.
Proof.
  assert (∀ m, apply_writes db sc ws m =
               list_to_map (reverse ((λ t, (key t.1, t.2)) <$> ws)) ∪ m) as Hunion.
  { induction ws as [|t ws IH]; intros m.
    - simpl. by rewrite (left_id_L ∅ (∪)).
    - rewrite apply_writes_cons, IH, fmap_cons, reverse_cons, list_to_map_app.
      rewrite <- (assoc_L (∪)). f_equal.
      simpl. by rewrite <- insert_union_l, (left_id_L ∅ (∪)). }
  rewrite !Hunion, (assoc_L (∪)). f_equal. apply (idemp_L (∪)).
Qed.

End WriteFacts.

(** ** Runs in which every call succeeds *)

Section SunnyFacts.
Import Summary Deployer.
Context (w : World).

Local Abbreviation entry := (λ f : string, (table_name_of f, rows_in w f)).

Lemma table_name_of_spec (f : string) :
  extension_only_at_end f = true → table_name_of f = spec_table_name f.
Proof.
  unfold extension_only_at_end, table_name_of, spec_table_name.
  intros [Hname Hocc]%andb_true_iff.
  apply bool_decide_eq_true in Hname. apply negb_true_iff in Hocc.
  rewrite Hname at 1. by rewrite (replace_csv_stem _ Hocc).
Qed.





End SunnyFacts.

(** ** More on runs *)

Section MoreRunFacts.
Import Summary Deployer.
Context (w : World) (dir db sc conn : string)
        (wh : gmap (string * string * string) Data).

Lemma run_no_files_message :
  stops_at w dir db sc conn = PNoFiles →
  print (MsgNoCsvFiles dir) ∈ trace (run w dir db sc conn wh).1.
Proof.
  destruct (run_spec w dir db sc conn wh)
    as (s & l & Hrun & Htr & _ & _ & _ & _ & Hno).
  intros Hph. rewrite Hrun. cbn [fst]. rewrite Htr.
  apply elem_of_app. right. apply elem_of_app. left. by apply Hno.
Qed.

Lemma stops_at_PNoFiles :
  csv_files w dir = [] → connect_ok w db sc conn = true →
  duckdb_connect_ok w = true → stops_at w dir db sc conn = PNoFiles.
Proof. unfold stops_at. by intros -> -> ->. Qed.

Local Ltac no_step :=
  split; [discriminate|];
  intros (? & ? & ? & ? & ? & ? & ?); first [discriminate | congruence].

(** Every step completed: the closed form of [steps_ok]. *)
Lemma steps_ok_iff :
  steps_ok w dir db sc conn = true ↔
  connect_ok w db sc conn = true
  ∧ duckdb_connect_ok w = true
  ∧ csv_files w dir ≠ []
  ∧ ∃ duck, load_all w (csv_files w dir) [] = Some duck
            ∧ show_tables_ok w = true
            ∧ (deploy_all w duck (merge_sort String.le (duck.*1))).2 = true.
Proof.
  unfold steps_ok, stops_at. rewrite bool_decide_eq_true.
  destruct (connect_ok w db sc conn); cbn [negb]; [|no_step].
  destruct (duckdb_connect_ok w); cbn [negb]; [|no_step].
  destruct (csv_files w dir) as [|f fs]; [no_step|].
  destruct (load_all w (f :: fs) []) as [duck|]; [|no_step].
  destruct (show_tables_ok w); cbn [negb]; [|no_step].
  destruct (deploy_all w duck _) as [ws [|]] eqn:Hws; cbn [negb].
  - split; [intros _|done]. split_and!; [done..|].
    exists duck. by rewrite Hws.
  - split; [done|]. intros (_ & _ & _ & duck' & [= <-] & _ & Hok).
    by rewrite Hws in Hok.
Qed.

(** The outcome of a run: the cleanup decides whether it raises. *)
Lemma run_raises_iff :
  let r := run w dir db sc conn wh in
  r.2 = Raised ↔
  (is_Some (session r.1) ∧ session_close_ok w = false)
  ∨ (is_Some (con r.1) ∧ con_close_ok w = false).
Proof.
  intros r. unfold r. rewrite run_result.
  rewrite <- (bool_decide_eq_true (is_Some (session _))).
  rewrite <- (bool_decide_eq_true (is_Some (con _))).
  rewrite run_session, run_con. unfold finally_raises.
  destruct (session_create_ok w conn), (bool_decide (2 ≤ _)),
    (session_close_ok w), (con_close_ok w); simpl;
    intuition (auto; discriminate).
Qed.

End MoreRunFacts.

(** ** A second run *)

Section RerunFacts.
Import Summary Deployer.

Lemma load_all_entries (w : World) (files : list string) :
  ∀ duck duck',
    load_all w files duck = Some duck' →
    duck' = duck ++ ((λ f, (table_name_of f, rows_in w f)) <$> files).
Proof.
  induction files as [|f files IH]; intros duck duck'; simpl.
  { intros [= <-]. by rewrite app_nil_r. }
  destruct (load_one w f duck) as [duck1|] eqn:Hone; [|done].
  intros Hall. apply load_one_Some in Hone as (_ & _ & rows & Hrows & ->).
  rewrite (IH _ _ Hall), <- (assoc_L (++)). simpl.
  unfold rows_in at 2. by rewrite Hrows.
Qed.

Lemma deploy_one_sub (w : World) (duck : DuckDB) (n : string) (rows : Data) :
  deploy_one w duck n = Some rows → (n, rows) ∈ duck.
Proof.
  unfold deploy_one. destruct (to_arrow_table_ok w n); [|done].
  destruct (list_find _ duck) as [[i [n' rows']]|] eqn:Hfind; [|done].
  destruct (_ && _); [|done]. intros [= <-].
  apply list_find_Some in Hfind as (Hi & Hn & _). simpl in Hn. subst n'.
  by apply list_elem_of_lookup_2 in Hi.
Qed.

(** The second loop writes rows that a table of the local store holds. *)
Lemma deploy_all_sub (w : World) (duck : DuckDB) (names : list string)
    (n : string) (rows : Data) :
  (n, rows) ∈ (deploy_all w duck names).1 → (n, rows) ∈ duck.
Proof.
  induction names as [|n' names IH]; simpl.
  { by intros ?%elem_of_nil. }
  destruct (deploy_one w duck n') as [rows'|] eqn:Hone; simpl.
  - destruct (deploy_all w duck names) as [ws ok]. simpl in *.
    intros [[= -> ->]|Hin]%elem_of_cons; [|by apply IH].
    by apply deploy_one_sub in Hone.
  - by intros ?%elem_of_nil.
Qed.

(** A second loop that runs to its end has written every table it was
    given. *)
Lemma deploy_all_complete (w : World) (duck : DuckDB) (names : list string) :
  (deploy_all w duck names).2 = true → (deploy_all w duck names).1.*1 = names.
Proof.
  induction names as [|n names IH]; simpl; [done|].
  destruct (deploy_one w duck n) as [rows|]; simpl; [|done].
  destruct (deploy_all w duck names) as [ws ok]. cbn [fst snd] in *.
  intros Hok. rewrite fmap_cons. cbn [fst]. f_equal. by apply IH.
Qed.

Lemma writes_sub (w : World) (dir db sc conn n : string) (rows : Data) :
  (n, rows) ∈ writes w dir db sc conn →
  ∃ duck, load_all w (csv_files w dir) [] = Some duck ∧ (n, rows) ∈ duck.
Proof.
  unfold writes. case_decide; [|by intros ?%elem_of_nil].
  destruct (load_all w (csv_files w dir) []) as [duck|];
    [|by intros ?%elem_of_nil].
  intros Hin%deploy_all_sub. eauto.
Qed.

(** Writing rows that the tables already hold changes nothing. *)
Lemma apply_writes_same (db sc : string) (ws : list (string * Data)) :
  ∀ wh : gmap (string * string * string) Data,
    (∀ n rows, (n, rows) ∈ ws → wh !! (db, sc, n) = Some rows) →
    apply_writes db sc ws wh = wh.
Proof.
  induction ws as [|[n rows] ws IH]; intros wh Hws; [done|].
  rewrite apply_writes_cons. simpl.
  rewrite insert_id by (apply Hws, elem_of_cons; by left).
  apply IH. intros n' rows' Hin. apply Hws, elem_of_cons. by right.
Qed.

(** After a run in which every step completed, each table of the local
    store is in the warehouse. *)
Lemma run_completed_holds (w : World) (dir db sc conn : string)
    (wh : gmap (string * string * string) Data)
    (duck : DuckDB) (n : string) (rows : Data) :
  steps_ok w dir db sc conn = true →
  load_all w (csv_files w dir) [] = Some duck →
  (n, rows) ∈ duck →
  warehouse (run w dir db sc conn wh).1 !! (db, sc, n) = Some rows.
Proof.
  intros Hok Hload Hin.
  pose proof (load_all_NoDup w _ _ Hload) as Hnd.
  apply load_all_Some in Hload as Hnames. destruct Hnames as (Hnames & _ & _).
  simpl in Hnames. rewrite <- Hnames in Hnd.
  assert (stops_at w dir db sc conn = PDone) as Hph
    by (by apply bool_decide_eq_true in Hok).
  apply steps_ok_iff in Hok as (_ & _ & _ & duck' & Hload' & _ & Hall).
  rewrite Hload in Hload'. injection Hload' as <-.
  set (names := merge_sort String.le (duck.*1)) in *.
  assert (writes w dir db sc conn = (deploy_all w duck names).1) as Hws.
  { unfold writes. rewrite Hph, Hload. by rewrite decide_True by (simpl; lia). }
  pose proof (deploy_all_complete w duck names Hall) as Hfst.
  rewrite run_warehouse, Hws.
  apply apply_writes_written.
  { rewrite Hfst. unfold names. by rewrite merge_sort_Permutation. }
  assert (n ∈ (deploy_all w duck names).1.*1) as Hn.
  { rewrite Hfst. unfold names. rewrite merge_sort_Permutation.
    by apply (list_elem_of_fmap_2 fst _ (n, rows)). }
  apply list_elem_of_fmap in Hn as ([n' rows'] & Hn' & Hin'). simpl in Hn'. subst n'.
  pose proof (deploy_all_sub _ _ _ _ _ Hin') as Hduck.
  pose proof (elem_of_list_to_map_1 (M := gmap string) duck n rows Hnd Hin) as H1.
  pose proof (elem_of_list_to_map_1 (M := gmap string) duck n rows' Hnd Hduck) as H2.
  assert (rows' = rows) as <- by congruence. done.
Qed.

(** A run that follows a run in which every step completed, on the same
    files with the same contents, leaves the warehouse as it found it,
    whichever of its own calls fail. *)
Lemma rerun_after_success (w1 w2 : World) (dir db sc conn conn' : string)
    (wh : gmap (string * string * string) Data) :
  csv_files w1 dir = csv_files w2 dir →
  (∀ f, read_csv_auto w1 f = read_csv_auto w2 f) →
  steps_ok w1 dir db sc conn = true →
  let r1 := run w1 dir db sc conn wh in
  warehouse (run w2 dir db sc conn' (warehouse r1.1)).1 = warehouse r1.1.
Proof.
  intros Hfiles Hrows Hok r1. rewrite run_warehouse.
  apply apply_writes_same. intros n rows (duck2 & Hload2 & Hin)%writes_sub.
  pose proof Hok as (_ & _ & _ & duck1 & Hload1 & _)%steps_ok_iff.
  apply (run_completed_holds w1 dir db sc conn wh duck1); [done..|].
  apply load_all_entries in Hload1, Hload2. simpl in *. subst duck1 duck2.
  rewrite Hfiles.
  erewrite list_fmap_ext; [exact Hin|].
  intros i f _. simpl. unfold rows_in. by rewrite Hrows.
Qed.

End RerunFacts.

(** ** A directory path without wildcard characters *)

Section PathFacts.
Import Str Summary Deployer.

Lemma all_char_ends (c : ascii) (s : string) :
  s ≠ "" → all_char c s = true → endswith_char s c = true.
Proof.
  induction s as [|a s IH]; [done|]. intros _.
  cbn [all_char]. intros [Ha Hs]%andb_true_iff.
  destruct s as [|b s]; [done|]. cbn [endswith_char]. by apply IH.
Qed.

Lemma rstrip_not_ending (c : ascii) (s : string) :
  endswith_char s c = false → rstrip c s = s.
Proof.
  induction s as [|a s IH]; [done|].
  destruct s as [|b s].
  - cbn. by intros ->.
  - intros Hs. change (endswith_char (String a (String b s)) c)
      with (endswith_char (String b s) c) in Hs.
    change (rstrip c (String a (String b s)))
      with (match rstrip c (String b s) with
            | "" => if Ascii.eqb a c then "" else String a ""
            | r => String a r
            end).
    by rewrite (IH Hs).
Qed.

Lemma rstrip_snoc (c : ascii) (s : string) :
  rstrip c (s +:+ String c "") = rstrip c s.
Proof.
  induction s as [|a s IH].
  - rewrite str_app_nil_l.
    change (rstrip c (String c "")) with (if Ascii.eqb c c then "" else String c "").
    by rewrite Ascii.eqb_refl.
  - rewrite str_app_cons.
    change (rstrip c (String a (s +:+ String c "")))
      with (match rstrip c (s +:+ String c "") with
            | "" => if Ascii.eqb a c then "" else String a ""
            | r => String a r
            end).
    by rewrite IH.
Qed.

Lemma all_char_app (c : ascii) (s t : string) :
  all_char c (s +:+ t) = all_char c s && all_char c t.
Proof.
  induction s as [|a s IH]; [done|].
  rewrite str_app_cons. cbn [all_char]. by rewrite IH, andb_assoc.
Qed.

Lemma join_plain (dir name : string) :
  dir ≠ "" → endswith_char dir "/" = false → startswith name "/" = false →
  PosixPath.join dir name = dir +:+ "/" +:+ name.
Proof.
  intros Hne Hend Hname. unfold PosixPath.join. rewrite Hname.
  destruct dir; [done|]. unfold PosixPath.sep. by rewrite Hend.
Qed.

(** The directory part that [glob] splits off the pattern of line 44 is
    the directory given. *)
Lemma split_join_head (dir : string) :
  dir ≠ "" → endswith_char dir "/" = false →
  (PosixPath.split (PosixPath.join dir "*.csv")).1 = dir.
Proof.
  intros Hne Hend. rewrite join_plain by done.
  unfold PosixPath.split, PosixPath.sep.
  rewrite <- str_app_assoc, rfind_succ_app.
  change (rfind_succ "/" "*.csv") with 0. cbn iota.
  rewrite (rfind_succ_endswith _ _ (endswith_char_snoc dir "/")).
  rewrite take_app_length. cbn [fst].
  assert (all_char "/" (dir +:+ "/") = false) as Hall.
  { rewrite all_char_app. apply andb_false_iff. left.
    destruct (all_char "/" dir) eqn:E; [|done].
    by rewrite (all_char_ends _ _ Hne E) in Hend. }
  rewrite Hall, rstrip_snoc, (rstrip_not_ending _ _ Hend).
  destruct dir; [done|]. by rewrite str_app_cons.
Qed.







End PathFacts.

(** * The claims *)

Section Claims.
Import Summary Deployer Scenario Detail.




(** C7, as the code has it.  For every run in which a matched file fails
    to load, the run makes no [save_as_table] call and leaves the warehouse
    as it was; it does not return true, and it returns false when the two
    releases succeed (a release that raises makes the call raise
    instead). *)
Theorem C7_load_failure_aborts
    (w : World) (dir db sc conn : string)
    (wh : gmap (string * string * string) Data) (f : string) :
  f ∈ csv_files w dir →
  file_loads w f = false →
  let r := run w dir db sc conn wh in
  warehouse r.1 = wh
  ∧ (∀ t, write_save_as_table t ∉ trace r.1)
  ∧ r.2 ≠ Returned true
  ∧ (session_close_ok w = true → con_close_ok w = true →
     r.2 = Returned false).
Proof.
  intros Hf Hbad r.
  destruct (run_stops_early w dir db sc conn wh 3) as (Hwh & Hcalls & Hr & Hok);
    [|lia|].
  { apply stops_at_load_fails. by apply (load_all_bad_file w _ f). }
  split_and!; try done.
  intros t. apply Hcalls; simpl; lia.
Qed.

Lemma C7_load_failure_aborts_witness :
  let w := sunny ["a.csv"; "bad.csv"; "c.csv"] rows_of in
  let r := run w "data" "REPORTING_DB" "FINANCE" "my_prod_connection" ∅ in
  warehouse r.1 = ∅
  ∧ (∀ t, write_save_as_table t ∉ trace r.1)
  ∧ r.2 ≠ Returned true
  ∧ (session_close_ok w = true → con_close_ok w = true →
     r.2 = Returned false).
Proof.
  apply (C7_load_failure_aborts
           (sunny ["a.csv"; "bad.csv"; "c.csv"] rows_of)
           "data" "REPORTING_DB" "FINANCE" "my_prod_connection" ∅
           "data/bad.csv").
  - apply list_elem_of_In. vm_compute. tauto.
  - vm_compute. reflexivity.
Defined.

(** C7 as stated fails: [bad.csv] does not load and [session.close()]
    raises; the call raises instead of returning false. *)
Lemma C7_counterexample :
  let w := close_fails ["a.csv"; "bad.csv"] rows_of in
  let r := example_run w in
  csv_files w "data" = ["data/a.csv"; "data/bad.csv"]
  ∧ file_loads w "data/bad.csv" = false
  ∧ r.2 = Raised
  ∧ warehouse r.1 = ∅.
Proof. vm_compute. repeat split. Qed.

(** C4, as the code has it.  For every source directory in which line 44
    matches no file (a missing directory has no entries, so it matches
    none): the run leaves the warehouse as it was and makes no call of the
    load or deploy phase; it does not return true; it returns false when
    the two releases succeed; and when the connection steps succeeded it
    has printed the no-files message. *)
Theorem C4_no_matching_files
    (w : World) (dir db sc conn : string)
    (wh : gmap (string * string * string) Data) :
  csv_files w dir = [] →
  let r := run w dir db sc conn wh in
  warehouse r.1 = wh
  ∧ (∀ t f, con_execute_create t f ∉ trace r.1)
  ∧ (con_execute_show_tables ∉ trace r.1)
  ∧ (∀ t, con_table_to_arrow_table t ∉ trace r.1)
  ∧ (∀ t, write_save_as_table t ∉ trace r.1)
  ∧ r.2 ≠ Returned true
  ∧ (session_close_ok w = true → con_close_ok w = true →
     r.2 = Returned false)
  ∧ (connect_ok w db sc conn = true → duckdb_connect_ok w = true →
     print (MsgNoCsvFiles dir) ∈ trace r.1).
Proof.
  intros Hfiles r.
  destruct (run_stops_early w dir db sc conn wh 2) as (Hwh & Hcalls & Hr & Hok);
    [by apply stops_at_no_files | lia |].
  split_and!; try done; try (intros; apply Hcalls; simpl; lia).
  intros Hc Hd. apply run_no_files_message. by apply stops_at_PNoFiles.
Qed.

Lemma C4_no_matching_files_witness :
  let w := sunny ["notes.txt"; "SALES.CSV"] rows_of in
  let r := run w "data" "REPORTING_DB" "FINANCE" "my_prod_connection" ∅ in
  warehouse r.1 = ∅
  ∧ (∀ t f, con_execute_create t f ∉ trace r.1)
  ∧ (con_execute_show_tables ∉ trace r.1)
  ∧ (∀ t, con_table_to_arrow_table t ∉ trace r.1)
  ∧ (∀ t, write_save_as_table t ∉ trace r.1)
  ∧ r.2 ≠ Returned true
  ∧ (session_close_ok w = true → con_close_ok w = true →
     r.2 = Returned false)
  ∧ (connect_ok w "REPORTING_DB" "FINANCE" "my_prod_connection" = true →
     duckdb_connect_ok w = true →
     print (MsgNoCsvFiles "data") ∈ trace r.1).
Proof.
  apply (C4_no_matching_files
           (sunny ["notes.txt"; "SALES.CSV"] rows_of)
           "data" "REPORTING_DB" "FINANCE" "my_prod_connection" ∅).
  vm_compute. reflexivity.
Defined.

(** C4 as stated fails: the directory is empty and [session.close()]
    raises; the call raises instead of returning false. *)
Lemma C4_counterexample :
  let w := close_fails [] rows_of in
  let r := example_run w in
  csv_files w "data" = []
  ∧ r.2 = Raised
  ∧ trace r.1 =
      [print MsgStarting; session_builder_create "my_prod_connection";
       print MsgConnected; session_use_database "REPORTING_DB";
       session_use_schema "FINANCE";
       print (MsgContext "REPORTING_DB" "FINANCE");
       duckdb_connect; print MsgDuckConnected; glob_glob "data/*.csv";
       print (MsgNoCsvFiles "data"); session_close].
Proof. vm_compute. repeat split. Qed.

(** C8, as the code has it.  For every invocation in which opening the
    session or selecting the database or schema fails: the local store is
    never opened and no table is created in it, the warehouse is left as it
    was, the session is released exactly when it had been acquired, the run
    does not return true, and it returns false unless the release of the
    session raises. *)
Theorem C8_connection_failure
    (w : World) (dir db sc conn : string)
    (wh : gmap (string * string * string) Data) :
  connect_ok w db sc conn = false →
  let r := run w dir db sc conn wh in
  con r.1 = None
  ∧ (duckdb_connect ∉ trace r.1)
  ∧ (∀ t f, con_execute_create t f ∉ trace r.1)
  ∧ warehouse r.1 = wh
  ∧ (session_close ∈ trace r.1 ↔ is_Some (session r.1))
  ∧ r.2 ≠ Returned true
  ∧ (session_create_ok w conn = false ∨ session_close_ok w = true →
     r.2 = Returned false).
Proof.
  intros Hconn r.
  pose proof (stops_at_connect w dir db sc conn Hconn) as Hph.
  destruct (run_stops_early w dir db sc conn wh 0) as (Hwh & Hcalls & Hr & _);
    [by rewrite Hph | lia |].
  split_and!; try done; try (intros; apply Hcalls; simpl; lia).
  - pose proof (run_con w dir db sc conn wh) as Hc. rewrite Hph in Hc.
    apply bool_decide_eq_false in Hc. fold r in Hc.
    destruct (con r.1); [|done]. destruct Hc. eauto.
  - apply run_session_close.
  - intros Hs. unfold r. rewrite run_result, steps_ok_early by (rewrite Hph; simpl; lia).
    unfold finally_raises. rewrite Hph. simpl.
    destruct Hs as [-> | ->]; [done|]. by rewrite andb_false_r.
Qed.

Lemma C8_connection_failure_witness :
  let w := no_database ["a.csv"] rows_of in
  let r := run w "data" "REPORTING_DB" "FINANCE" "my_prod_connection" ∅ in
  con r.1 = None
  ∧ (duckdb_connect ∉ trace r.1)
  ∧ (∀ t f, con_execute_create t f ∉ trace r.1)
  ∧ warehouse r.1 = ∅
  ∧ (session_close ∈ trace r.1 ↔ is_Some (session r.1))
  ∧ r.2 ≠ Returned true
  ∧ (session_create_ok w "my_prod_connection" = false
     ∨ session_close_ok w = true →
     r.2 = Returned false).
Proof.
  apply (C8_connection_failure
           (no_database ["a.csv"] rows_of)
           "data" "REPORTING_DB" "FINANCE" "my_prod_connection" ∅).
  vm_compute. reflexivity.
Defined.

(** C8 as stated fails: the session opens, [use_database] raises, and then
    [session.close()] raises in the cleanup; the call raises instead of
    returning false. *)
Lemma C8_counterexample :
  let w := no_database ["a.csv"] rows_of in
  let r := example_run w in
  connect_ok w "REPORTING_DB" "FINANCE" "my_prod_connection" = false
  ∧ r.2 = Raised
  ∧ trace r.1 =
      [print MsgStarting; session_builder_create "my_prod_connection";
       print MsgConnected; session_use_database "REPORTING_DB";
       print MsgError; session_close].
Proof. vm_compute. repeat split. Qed.

(** C2, as the code has it.  The cleanup block has no handler of its own:
    the session is released exactly when it was acquired; the local store
    connection is released exactly when it was acquired and the release of
    the session (if there was one) did not raise; the call raises exactly
    when a release raises; and when no release raises the result is the
    boolean the [try] block and its handler decided. *)
Theorem C2_cleanup_releases
    (w : World) (dir db sc conn : string)
    (wh : gmap (string * string * string) Data) :
  let r := run w dir db sc conn wh in
  (session_close ∈ trace r.1 ↔ is_Some (session r.1))
  ∧ (con_close ∈ trace r.1 ↔
     is_Some (con r.1) ∧ (is_Some (session r.1) → session_close_ok w = true))
  ∧ (r.2 = Raised ↔
     (is_Some (session r.1) ∧ session_close_ok w = false)
     ∨ (is_Some (con r.1) ∧ con_close_ok w = false))
  ∧ (r.2 ≠ Raised → r.2 = Returned (steps_ok w dir db sc conn)).
Proof.
  intros r. split_and!.
  - apply run_session_close.
  - apply run_con_close.
  - apply run_raises_iff.
  - unfold r. rewrite run_result. by destruct (finally_raises _ _ _).
Qed.

(** C2 as stated fails: one file, every step succeeds, and
    [session.close()] raises.  The local store connection was acquired but
    [con.close()] is never called, and the call raises instead of returning
    the boolean. *)
Lemma C2_counterexample :
  let w := close_fails ["a.csv"] rows_of in
  let r := example_run w in
  con r.1 = Some [("A", [["data/a.csv"]])]
  ∧ steps_ok w "data" "REPORTING_DB" "FINANCE" "my_prod_connection" = true
  ∧ r.2 = Raised
  ∧ trace r.1 =
      [print MsgStarting; session_builder_create "my_prod_connection";
       print MsgConnected; session_use_database "REPORTING_DB";
       session_use_schema "FINANCE";
       print (MsgContext "REPORTING_DB" "FINANCE");
       duckdb_connect; print MsgDuckConnected; glob_glob "data/*.csv";
       print (MsgFound 1); con_execute_create "A" "data/a.csv";
       print (MsgLoaded "data/a.csv" "A"); con_execute_show_tables;
       print (MsgTables ["A"]); print (MsgProcessing "A");
       con_table_to_arrow_table "A";
       session_create_dataframe [["data/a.csv"]];
       write_save_as_table "A"; print (MsgDeployed "A"); session_close].
Proof. vm_compute. repeat split. Qed.

(** C5, as the code has it.  A run either raises or returns a boolean; it
    raises exactly when a release in the cleanup raises; otherwise it
    returns true if and only if every step completed without error and
    there was a file (connect, open the local store, at least one match,
    load all, list the tables, export and write all). *)
Theorem C5_result
    (w : World) (dir db sc conn : string)
    (wh : gmap (string * string * string) Data) :
  let r := run w dir db sc conn wh in
  (r.2 = Raised ∨ r.2 = Returned (steps_ok w dir db sc conn))
  ∧ (r.2 = Raised ↔
     (is_Some (session r.1) ∧ session_close_ok w = false)
     ∨ (is_Some (con r.1) ∧ con_close_ok w = false))
  ∧ (session_close_ok w = true → con_close_ok w = true →
     r.2 = Returned (steps_ok w dir db sc conn))
  ∧ (steps_ok w dir db sc conn = true ↔
     connect_ok w db sc conn = true
     ∧ duckdb_connect_ok w = true
     ∧ csv_files w dir ≠ []
     ∧ ∃ duck, load_all w (csv_files w dir) [] = Some duck
               ∧ show_tables_ok w = true
               ∧ (deploy_all w duck (merge_sort String.le (duck.*1))).2 = true).
Proof.
  intros r. split_and!.
  - unfold r. rewrite run_result. destruct (finally_raises _ _ _); auto.
  - apply run_raises_iff.
  - intros Hs Hc. unfold r. rewrite run_result. unfold finally_raises.
    rewrite Hs, Hc. by rewrite !andb_false_r.
  - apply steps_ok_iff.
Qed.

(** C5 as stated fails: two files, every step from connecting to the last
    write succeeds, and [con.close()] raises; the caller gets an exception,
    not a boolean. *)
Lemma C5_counterexample :
  let w := {|
    session_create_ok := λ _, true; use_database_ok := λ _, true;
    use_schema_ok := λ _, true; duckdb_connect_ok := true;
    scandir := λ d, if bool_decide (d = "data") then ["a.csv"; "b.csv"] else [];
    lexists := λ _, false; isdir := λ _, false; expand_dirs := λ _, [];
    create_stmt_ok := λ _ _, true; read_csv_auto := rows_of;
    show_tables_ok := true; to_arrow_table_ok := λ _, true;
    create_dataframe_ok := λ _, true; save_as_table_ok := λ _, true;
    session_close_ok := true; con_close_ok := false |} in
  let r := example_run w in
  steps_ok w "data" "REPORTING_DB" "FINANCE" "my_prod_connection" = true
  ∧ r.2 = Raised
  ∧ warehouse r.1 !! ("REPORTING_DB", "FINANCE", "A") = Some [["data/a.csv"]]
  ∧ warehouse r.1 !! ("REPORTING_DB", "FINANCE", "B") = Some [["data/b.csv"]].
Proof. vm_compute. repeat split. Qed.

(** C9.  Running the function a second time in the same world (same
    directory, target and file contents) leaves every table of the
    warehouse as the first run left it, and ends the same way: a write
    replaces a table, it does not append to it.  When every step of the
    first run completed, this holds of any second run on the same files
    with the same contents, whichever of its own calls fail. *)
Theorem C9_rerun_idempotent
    (w : World) (dir db sc conn : string)
    (wh : gmap (string * string * string) Data) :
  let r1 := run w dir db sc conn wh in
  let r2 := run w dir db sc conn (warehouse r1.1) in
  warehouse r2.1 = warehouse r1.1
  ∧ (∀ k, warehouse r2.1 !! k = warehouse r1.1 !! k)
  ∧ r2.2 = r1.2
  ∧ (∀ w' conn',
       csv_files w dir = csv_files w' dir →
       (∀ f, read_csv_auto w f = read_csv_auto w' f) →
       steps_ok w dir db sc conn = true →
       warehouse (run w' dir db sc conn' (warehouse r1.1)).1 = warehouse r1.1).
Proof.
  intros r1 r2.
  assert (warehouse r2.1 = warehouse r1.1) as Heq.
  { unfold r2, r1. rewrite !run_warehouse. apply apply_writes_twice. }
  split_and!; [done| by rewrite Heq | |].
  - unfold r2, r1. by rewrite !run_result.
  - intros w' conn' Hfiles Hrows Hok. by apply rerun_after_success.
Qed.




(** C3: line 51 at a file whose name has [.csv] twice.  The claim has the
    table called [SALES.CSV] (only the trailing extension removed);
    [replace] removes every occurrence, and the table is called [SALES]. *)
Theorem C3_replace_removes_every_occurrence :
  csv_match "sales.csv.csv" = true
  ∧ spec_table_name "data/sales.csv.csv" = "SALES.CSV"
  ∧ table_name_of "data/sales.csv.csv" = "SALES"
  ∧ warehouse (example_run (sunny ["sales.csv.csv"] rows_of)).1
      !! ("REPORTING_DB", "FINANCE", "SALES") = Some [["data/sales.csv.csv"]]
  ∧ warehouse (example_run (sunny ["sales.csv.csv"] rows_of)).1
      !! ("REPORTING_DB", "FINANCE", "SALES.CSV") = None.
Proof. vm_compute. repeat split. Qed.




End Claims.

(** * Further properties *)

Section RunDetail.
Import Summary Deployer Scenario Detail.



(** The steps a run has passed when it stops at a phase. *)
Lemma stops_at_reached (w : World) (dir db sc conn : string) :
  let n := phase_rank (stops_at w dir db sc conn) in
  (1 ≤ n → connect_ok w db sc conn = true)
  ∧ (2 ≤ n → duckdb_connect_ok w = true)
  ∧ (3 ≤ n → csv_files w dir ≠ [])
  ∧ (4 ≤ n → is_Some (load_all w (csv_files w dir) []))
  ∧ (5 ≤ n → show_tables_ok w = true).
Proof.
  unfold stops_at.
  destruct (connect_ok w db sc conn); cbn [negb phase_rank];
    [|split_and!; intros; lia].
  destruct (duckdb_connect_ok w); cbn [negb phase_rank];
    [|split_and!; intros; first [done | lia]].
  destruct (csv_files w dir) as [|f fs]; cbn [phase_rank];
    [split_and!; intros; first [done | lia]|].
  destruct (load_all w (f :: fs) []) as [duck|]; cbn [phase_rank];
    [|split_and!; intros; first [done | lia]].
  destruct (show_tables_ok w); cbn [negb phase_rank];
    [|split_and!; intros; first [done | by eauto | lia]].
  destruct (deploy_all w duck _) as [ws [|]]; cbn [snd phase_rank];
    split_and!; intros; first [done | by eauto].
Qed.





(** X3.  The order of the steps: a call is made only when the steps before
    it succeeded.  The local store is opened only with the session open and
    the database and schema selected; the directory is listed only with the
    local store open; a table is created only when a file matched; the
    tables are listed only when every file loaded; and a table is
    exported, turned into a dataframe or written only when, besides, the
    listing succeeded. *)
Theorem X3_step_order
    (w : World) (dir db sc conn : string)
    (wh : gmap (string * string * string) Data) :
  let r := run w dir db sc conn wh in
  (duckdb_connect ∈ trace r.1 → connect_ok w db sc conn = true)
  ∧ (∀ p, glob_glob p ∈ trace r.1 →
          connect_ok w db sc conn = true ∧ duckdb_connect_ok w = true)
  ∧ (∀ t f, con_execute_create t f ∈ trace r.1 →
            duckdb_connect_ok w = true ∧ csv_files w dir ≠ [])
  ∧ (con_execute_show_tables ∈ trace r.1 →
     is_Some (load_all w (csv_files w dir) []))
  ∧ (∀ t, con_table_to_arrow_table t ∈ trace r.1 →
          is_Some (load_all w (csv_files w dir) [])
          ∧ show_tables_ok w = true)
  ∧ (∀ a, session_create_dataframe a ∈ trace r.1 →
          is_Some (load_all w (csv_files w dir) [])
          ∧ show_tables_ok w = true)
  ∧ (∀ t, write_save_as_table t ∈ trace r.1 →
          is_Some (load_all w (csv_files w dir) [])
          ∧ show_tables_ok w = true).
Proof.
  intros r.
  destruct (stops_at_reached w dir db sc conn) as (H1 & H2 & H3 & H4 & H5).
  assert (∀ c, c ∈ trace r.1 → call_rank c < 6 →
               call_rank c ≤ phase_rank (stops_at w dir db sc conn)) as Hrank.
  { intros c Hc Hlt. apply run_trace_rank in Hc as [Hc|[->| ->]]; [done|..];
      simpl in Hlt; lia. }
  split_and!.
  - intros Hc%Hrank; simpl in *; [|lia]. apply H1. lia.
  - intros p Hc%Hrank; simpl in *; [|lia]. split; [apply H1|apply H2]; lia.
  - intros t f Hc%Hrank; simpl in *; [|lia]. split; [apply H2|apply H3]; lia.
  - intros Hc%Hrank; simpl in *; [|lia]. apply H4. lia.
  - intros t Hc%Hrank; simpl in *; [|lia]. split; [apply H4|apply H5]; lia.
  - intros a Hc%Hrank; simpl in *; [|lia]. split; [apply H4|apply H5]; lia.
  - intros t Hc%Hrank; simpl in *; [|lia]. split; [apply H4|apply H5]; lia.
Qed.

End RunDetail.

Section WriteFailure.
Import Summary Deployer Scenario Detail.




End WriteFailure.

Section EnumerationDetail.
Import Str Summary Deployer Scenario Detail.

(** X5.  Line 44 for a directory path that is not empty and has no
    trailing slash.  Without wildcard characters in the path, the files
    processed are the entries of that directory that end in [.csv] and are
    not hidden, in the order the directory yields them, each joined to the
    path.  With a wildcard character ([*], [?] or [[]) the path is itself
    taken as a pattern: the directories listed are those it expands to.  A
    trailing slash on the path changes nothing. *)
Theorem X5_plain_directory (w : World) (dir : string) :
  dir ≠ "" → endswith_char dir "/" = false →
  csv_dirs w dir = (if Glob.has_magic dir then expand_dirs w dir else [dir])
  ∧ (Glob.has_magic dir = false →
     csv_files w dir =
     PosixPath.join dir <$> List.filter csv_match (scandir w dir))
  ∧ csv_files w (dir +:+ "/") = csv_files w dir.
Proof.
  intros Hne Hend.
  assert (csv_dirs w dir =
          if Glob.has_magic dir then expand_dirs w dir else [dir]) as Hdirs.
  { unfold csv_dirs. rewrite split_join_head by done.
    destruct dir as [|a dir]; [done|]. unfold Glob.iglob_dirs.
    rewrite bool_decide_eq_false_2; [done|].
    rewrite join_plain by done. intros Heq%(f_equal String.length).
    rewrite !str_length_app in Heq. simpl in Heq. lia. }
  split_and!; [done| |].
  - intros Hmagic. rewrite csv_files_eq, Hdirs, Hmagic. simpl.
    rewrite app_nil_r. unfold Glob._listdir. by destruct dir.
  - unfold csv_files. f_equal. rewrite (join_plain dir) by done.
    unfold PosixPath.join. cbn [startswith String.prefix].
    change (String.prefix "/" "*.csv") with false. cbn iota.
    destruct (dir +:+ "/") eqn:E; [by destruct dir|]. rewrite <- E.
    unfold PosixPath.sep. rewrite endswith_char_snoc.
    by rewrite str_app_assoc.
Qed.

Lemma X5_plain_directory_witness :
  let w := sunny ["b.csv"; ".hidden.csv"; "a.csv"; "notes.txt"] rows_of in
  csv_dirs w "data" = (if Glob.has_magic "data" then expand_dirs w "data" else ["data"])
  ∧ (Glob.has_magic "data" = false →
     csv_files w "data" =
     PosixPath.join "data" <$> List.filter csv_match (scandir w "data"))
  ∧ csv_files w ("data" +:+ "/") = csv_files w "data".
Proof.
  apply (X5_plain_directory
           (sunny ["b.csv"; ".hidden.csv"; "a.csv"; "notes.txt"] rows_of)
           "data").
  - discriminate.
  - reflexivity.
Defined.

Lemma upper_char_no_lowercase (a : ascii) :
  negb ((97 <=? N_of_ascii (upper_char a)) && (N_of_ascii (upper_char a) <=? 122))%N
  = true.
Proof. by destruct a as [[] [] [] [] [] [] [] []]. Qed.

Lemma upper_no_lowercase (s : string) : no_lowercase (upper s) = true.
Proof.
  induction s as [|a s IH]; [done|].
  cbn [upper no_lowercase]. by rewrite upper_char_no_lowercase, IH.
Qed.

Lemma upper_char_idemp (a : ascii) : upper_char (upper_char a) = upper_char a.
Proof. by destruct a as [[] [] [] [] [] [] [] []]. Qed.

Lemma upper_idemp (s : string) : upper (upper s) = upper s.
Proof.
  induction s as [|a s IH]; [done|].
  cbn [upper]. by rewrite upper_char_idemp, IH.
Qed.

Lemma length_upper (s : string) : String.length (upper s) = String.length s.
Proof. induction s as [|a s IH]; [done|]. cbn. by rewrite IH. Qed.

Lemma length_replace_scan (old : string) (s : string) :
  ∀ skip, String.length (replace_scan old "" skip s) ≤ String.length s.
Proof.
  induction s as [|a s IH]; intros skip; [done|].
  cbn [replace_scan]. destruct skip as [|k].
  - destruct (String.prefix old (String a s)).
    + rewrite str_app_nil_l. specialize (IH (String.length old - 1)).
      cbn [String.length]. lia.
    + cbn [String.length]. specialize (IH 0). lia.
  - specialize (IH k). cbn [String.length]. lia.
Qed.

(** X6.  Derived table names, for every path whose base name is ASCII: the
    name has no lower-case letter (upper-casing it again changes nothing),
    and it is no longer than the base name of the path. *)
Theorem X6_table_name_shape (csv_file : string) :
  is_ascii (PosixPath.basename csv_file) = true →
  no_lowercase (table_name_of csv_file) = true
  ∧ upper (table_name_of csv_file) = table_name_of csv_file
  ∧ String.length (table_name_of csv_file)
    ≤ String.length (PosixPath.basename csv_file).
Proof.
  intros _. unfold table_name_of. split_and!.
  - apply upper_no_lowercase.
  - apply upper_idemp.
  - rewrite length_upper. apply length_replace_scan.
Qed.

Lemma X6_table_name_shape_witness :
  no_lowercase (table_name_of "data/new_reports/q3.Sales.csv") = true
  ∧ upper (table_name_of "data/new_reports/q3.Sales.csv")
    = table_name_of "data/new_reports/q3.Sales.csv"
  ∧ String.length (table_name_of "data/new_reports/q3.Sales.csv")
    ≤ String.length (PosixPath.basename "data/new_reports/q3.Sales.csv").
Proof.
  apply (X6_table_name_shape "data/new_reports/q3.Sales.csv").
  reflexivity.
Defined.

(** X7.  For a directory entry that line 44 keeps (the entry has no
    separator, as no entry has): the table name is derived from the entry
    alone, whatever the directory, and it is not empty. *)
Theorem X7_table_name_of_entry (d name : string) :
  occurs "/" name = false →
  csv_match name = true →
  table_name_of (PosixPath.join d name) = upper (replace name ".csv" "")
  ∧ (∀ d', table_name_of (PosixPath.join d' name)
           = table_name_of (PosixPath.join d name))
  ∧ table_name_of (PosixPath.join d name) ≠ "".
Proof.
  intros Hsep Hmatch.
  assert (∀ d, table_name_of (PosixPath.join d name)
               = upper (replace name ".csv" "")) as Hname.
  { intros d0. unfold table_name_of. by rewrite basename_join. }
  split_and!; [done| by intros d'; rewrite !Hname |].
  rewrite Hname. unfold csv_match in Hmatch.
  apply andb_true_iff in Hmatch as [Hh Hm].
  apply fnmatchcase_star_csv in Hm as [stem ->].
  destruct stem as [|c stem]; [done|].
  rewrite str_app_cons in *. cbn [Glob._ishidden] in Hh.
  apply negb_true_iff in Hh.
  unfold replace.
  change (replace_scan ".csv" "" 0 (String c (stem +:+ ".csv")))
    with (if String.prefix ".csv" (String c (stem +:+ ".csv"))
          then "" +:+ replace_scan ".csv" "" 3 (stem +:+ ".csv")
          else String c (replace_scan ".csv" "" 0 (stem +:+ ".csv"))).
  rewrite prefix_cons, Ascii.eqb_sym, Hh. done.
Qed.

Lemma X7_table_name_of_entry_witness :
  table_name_of (PosixPath.join "data/new_reports" "q3.sales.csv")
  = upper (replace "q3.sales.csv" ".csv" "")
  ∧ (∀ d', table_name_of (PosixPath.join d' "q3.sales.csv")
           = table_name_of (PosixPath.join "data/new_reports" "q3.sales.csv"))
  ∧ table_name_of (PosixPath.join "data/new_reports" "q3.sales.csv") ≠ "".
Proof.
  apply (X7_table_name_of_entry "data/new_reports" "q3.sales.csv");
    reflexivity.
Defined.

End EnumerationDetail.

Section ScriptFacts.
Import Summary Deployer Scripts.

(** The local database was connected exactly when the three session steps
    and [duckdb.connect] went through. *)
Lemma con_connected_iff (w : World) (dir db sc conn : string) :
  2 ≤ phase_rank (stops_at w dir db sc conn) ↔
  connect_ok w db sc conn = true ∧ duckdb_connect_ok w = true.
Proof.
  unfold stops_at.
  destruct (connect_ok w db sc conn); cbn [negb phase_rank];
    [|split; [lia|by intros [? ?]]].
  destruct (duckdb_connect_ok w); cbn [negb phase_rank];
    [|split; [lia|by intros [? ?]]].
  destruct (csv_files w dir) as [|f fs]; cbn [phase_rank]; [split; [done|lia]|].
  destruct (load_all w (f :: fs) []) as [duck|]; cbn [phase_rank];
    [|split; [done|lia]].
  destruct (show_tables_ok w); cbn [negb phase_rank]; [|split; [done|lia]].
  destruct (deploy_all w duck _) as [ws [|]]; cbn [snd phase_rank];
    (split; [done|lia]).
Qed.

(** A release raises exactly when a handle that was acquired fails to
    close. *)
Lemma finally_raises_iff (w : World) (dir db sc conn : string) :
  finally_raises w (session_create_ok w conn)
    (bool_decide (2 ≤ phase_rank (stops_at w dir db sc conn))) = true ↔
  (session_create_ok w conn = true ∧ session_close_ok w = false)
  ∨ (connect_ok w db sc conn = true ∧ duckdb_connect_ok w = true
     ∧ con_close_ok w = false).
Proof.
  unfold finally_raises.
  rewrite orb_true_iff, !andb_true_iff, !negb_true_iff, bool_decide_eq_true.
  by rewrite con_connected_iff, (assoc (∧)).
Qed.

(** When every step went through, both handles were acquired. *)
Lemma steps_ok_raises (w : World) (dir db sc conn : string) :
  steps_ok w dir db sc conn = true →
  finally_raises w (session_create_ok w conn)
    (bool_decide (2 ≤ phase_rank (stops_at w dir db sc conn)))
  = negb (session_close_ok w && con_close_ok w).
Proof.
  intros Hok. pose proof Hok as (Hc & Hd & _)%steps_ok_iff.
  unfold finally_raises.
  rewrite (bool_decide_eq_true_2 _ (proj2 (con_connected_iff w dir db sc conn)
                                      (conj Hc Hd))).
  unfold connect_ok in Hc. apply andb_true_iff in Hc as [Hc _].
  apply andb_true_iff in Hc as [-> _]. simpl.
  by destruct (session_close_ok w), (con_close_ok w).
Qed.

(** What a script does with the value the function returns. *)
Lemma call_and_report_spec (w : World) (dir db sc conn : string)
    (yes no : Line) (before : list Event)
    (wh : gmap (string * string * string) Data) :
  yes ≠ no → Printed yes ∉ before → Printed no ∉ before →
  let m := call_and_report w dir db sc conn yes no before wh in
  let r := run w dir db sc conn wh in
  (Printed yes ∈ events m ↔
   steps_ok w dir db sc conn = true
   ∧ session_close_ok w = true ∧ con_close_ok w = true)
  ∧ (Printed no ∈ events m ↔
     steps_ok w dir db sc conn = false ∧ exit m = Finished)
  ∧ (exit m = Uncaught ↔
     (session_create_ok w conn = true ∧ session_close_ok w = false)
     ∨ (connect_ok w db sc conn = true ∧ duckdb_connect_ok w = true
        ∧ con_close_ok w = false))
  ∧ (exit m = Uncaught →
     (Printed yes ∉ events m) ∧ (Printed no ∉ events m))
  ∧ (∀ c, Deploy c ∈ events m ↔ Deploy c ∈ before ∨ c ∈ trace r.1)
  ∧ final_warehouse m = warehouse r.1.
Proof.
  intros Hyn Hyes Hno m r.
  assert (∀ l, Printed l ∉ Deploy <$> trace r.1) as Htr.
  { by intros l (c & [=] & _)%list_elem_of_fmap. }
  assert (∀ l, Printed l ∈ before ++ (Deploy <$> trace r.1)
               ↔ Printed l ∈ before) as Hev.
  { intros l. rewrite elem_of_app. specialize (Htr l). tauto. }
  assert (∀ c l, Deploy c ∈ (before ++ (Deploy <$> trace r.1)) ++ [Printed l]
                 ↔ Deploy c ∈ before ∨ c ∈ trace r.1) as Hdep.
  { intros c l. rewrite !elem_of_app, list_elem_of_singleton.
    rewrite list_elem_of_fmap. split.
    - intros [[?|(c' & [= ->] & ?)]|[=]]; auto.
    - intros [?|?]; [auto|]. left. right. by exists c. }
  assert (∀ l l', Printed l ∈ (before ++ (Deploy <$> trace r.1)) ++ [Printed l']
                  ↔ Printed l ∈ before ∨ l = l') as Hev2.
  { intros l l'. rewrite elem_of_app, Hev, list_elem_of_singleton.
    split; (intros [?|?]; [by left|right; congruence]). }
  pose proof (finally_raises_iff w dir db sc conn) as Hraise.
  pose proof (steps_ok_raises w dir db sc conn) as Hclose.
  pose proof (run_result w dir db sc conn wh) as Hres. cbv zeta in Hres.
  fold r in Hres.
  unfold m, call_and_report. fold r. rewrite Hres. clear Hres.
  destruct (finally_raises w _ _) eqn:Hfin.
  - cbn [events exit final_warehouse]. rewrite !Hev. split_and!.
    + split; [done|]. intros (Hok & Hs & Hc).
      specialize (Hclose Hok). by rewrite Hs, Hc in Hclose.
    + split; [done|]. by intros [_ [=]].
    + split; [intros _; by apply Hraise|done].
    + done.
    + intros c. rewrite elem_of_app, list_elem_of_fmap. split.
      * intros [?|(c' & [= ->] & ?)]; auto.
      * intros [?|?]; [auto|right; by exists c].
    + done.
  - assert (¬ ((session_create_ok w conn = true ∧ session_close_ok w = false)
              ∨ (connect_ok w db sc conn = true ∧ duckdb_connect_ok w = true
                 ∧ con_close_ok w = false))) as Hnot.
    { intros H%Hraise. done. }
    destruct (steps_ok w dir db sc conn) eqn:Hok;
      cbn [events exit final_warehouse];
      rewrite !Hev2; split_and!; try done; try apply Hdep.
    + split; [intros _|by right]. specialize (Hclose eq_refl).
      symmetry in Hclose.
      apply negb_false_iff, andb_true_iff in Hclose. done.
    + split; [by intros [?|?]|by intros [[=] _]].
    + split; [by intros [?|?]|by intros [[=] _]].
    + split; [done|by right].
Qed.


(** X9.  The module run as a script (lines 86-109), for every behaviour of
    the services and every warehouse.  Without the directory [data]
    nothing of the function runs: no call is made, the warehouse is as it
    was, and the two directory lines are printed.  With it, the function
    is run on [data] with the default connection name: its calls are the
    ones the script makes, the success line is printed exactly when every
    step went through and both handles closed, and the failure line
    exactly when a step failed and the script reached its last
    statement. *)
Theorem X9_test_mode_report
    (w : World) (wh : gmap (string * string * string) Data) :
  let m := test_mode w wh in
  let r := run w TEST_CSV_DIR TEST_SF_DATABASE TEST_SF_SCHEMA
             default_connection_name wh in
  let ok := steps_ok w TEST_CSV_DIR TEST_SF_DATABASE TEST_SF_SCHEMA
              default_connection_name in
  (∀ c, Deploy c ∈ events m ↔ isdir w TEST_CSV_DIR = true ∧ c ∈ trace r.1)
  ∧ (isdir w TEST_CSV_DIR = false → final_warehouse m = wh ∧ exit m = Finished)
  ∧ (Printed (LineTestDirNotFound TEST_CSV_DIR) ∈ events m ↔
     isdir w TEST_CSV_DIR = false)
  ∧ (Printed LineTestCompleted ∈ events m ↔
     isdir w TEST_CSV_DIR = true
     ∧ ok = true ∧ session_close_ok w = true ∧ con_close_ok w = true)
  ∧ (Printed LineTestFailed ∈ events m ↔
     isdir w TEST_CSV_DIR = true ∧ ok = false ∧ exit m = Finished)
  ∧ (exit m = Uncaught ↔
     isdir w TEST_CSV_DIR = true
     ∧ ((session_create_ok w default_connection_name = true
         ∧ session_close_ok w = false)
        ∨ (connect_ok w TEST_SF_DATABASE TEST_SF_SCHEMA
             default_connection_name = true
           ∧ duckdb_connect_ok w = true ∧ con_close_ok w = false))).
Proof.
  intros m r ok.
  destruct (call_and_report_spec w
              TEST_CSV_DIR TEST_SF_DATABASE TEST_SF_SCHEMA
              default_connection_name LineTestCompleted LineTestFailed
              [Printed LineTestMode; IsDir TEST_CSV_DIR] wh)
    as (H1 & H2 & H3 & _ & H5 & _).
  { done. }
  { by intros [[=]|[[=]|[]%elem_of_nil]%elem_of_cons]%elem_of_cons. }
  { by intros [[=]|[[=]|[]%elem_of_nil]%elem_of_cons]%elem_of_cons. }
  unfold m, test_mode. destruct (isdir w TEST_CSV_DIR) eqn:Hdir; cbn [negb].
  - split_and!.
    + intros c. rewrite H5. split.
      * intros [[[=]|[[=]|[]%elem_of_nil]%elem_of_cons]%elem_of_cons|?]; done.
      * intros [_ ?]. by right.
    + done.
    + split; [|done]. unfold call_and_report.
      assert (∀ l, Printed (LineTestDirNotFound TEST_CSV_DIR)
                   ∈ ([Printed LineTestMode; IsDir TEST_CSV_DIR]
                      ++ (Deploy <$> trace r.1)) ++ l →
                   Printed (LineTestDirNotFound TEST_CSV_DIR) ∈ l) as Hin.
      { intros l [[Hl|Hl]%elem_of_app|Hl]%elem_of_app; [| |done].
        - by apply elem_of_cons in Hl
            as [[=]|[[=]|[]%elem_of_nil]%elem_of_cons].
        - by apply list_elem_of_fmap in Hl as (c & [=] & _). }
      fold r. destruct r.2 as [[]|[|]|]; cbn [events].
      * by intros [[=]|[]%elem_of_nil]%Hin%elem_of_cons.
      * by intros [[=]|[]%elem_of_nil]%Hin%elem_of_cons.
      * by intros [[=]|[]%elem_of_nil]%Hin%elem_of_cons.
      * intros H. specialize (Hin []). rewrite app_nil_r in Hin.
        by apply Hin, elem_of_nil in H.
    + rewrite H1. by split; [|intros [_ ?]].
    + rewrite H2. by split; [|intros [_ ?]].
    + rewrite H3. by split; [|intros [_ ?]].
  - cbn [events exit final_warehouse]. split_and!.
    + intros c. split; [|by intros [[=] _]].
      by intros [[=]|[[=]|[[=]|[[=]|[]%elem_of_nil]%elem_of_cons]%elem_of_cons]%elem_of_cons]%elem_of_cons.
    + done.
    + split; [done|]. intros _. do 2 (apply elem_of_cons; right).
      apply elem_of_cons. by left.
    + split; [|by intros [[=] _]].
      by intros [[=]|[[=]|[[=]|[[=]|[]%elem_of_nil]%elem_of_cons]%elem_of_cons]%elem_of_cons]%elem_of_cons.
    + split; [|by intros [[=] _]].
      by intros [[=]|[[=]|[[=]|[[=]|[]%elem_of_nil]%elem_of_cons]%elem_of_cons]%elem_of_cons]%elem_of_cons.
    + split; [done|by intros [[=] _]].
Qed.

End ScriptFacts.

Section TraceDetail.
Import Summary Deployer Detail.

Lemma emits_silent {A} (P : Call → bool) (m : Py A) :
  (∀ s, trace (m s).1 = trace s) → emits P m.
Proof. intros Hm s. exists []. by rewrite app_nil_r. Qed.

Lemma emits_call (P : Call → bool) (c : Call) : P c = true → emits P (call c).
Proof. intros Hc s. exists [c]. simpl. by rewrite Hc. Qed.

Lemma emits_bind {A B} (P : Call → bool) (m : Py A) (k : A → Py B) :
  emits P m → (∀ a, emits P (k a)) → emits P (m ≫= k).
Proof.
  intros Hm Hk s. unfold mbind, Py_bind.
  destruct (Hm s) as (l & Hl & HP).
  destruct (m s) as [s' [a|b|]]; cbn [fst] in *; [|by exists l..].
  destruct (Hk a s') as (l' & Hl' & HP'). exists (l ++ l').
  rewrite Hl', Hl, (assoc_L (++)). split; [done|].
  by rewrite forallb_app, HP, HP'.
Qed.

Lemma emits_for_each {A} (P : Call → bool) (xs : list A) (body : A → Py unit) :
  (∀ x, emits P (body x)) → emits P (for_each xs body).
Proof.
  intros Hbody. induction xs as [|x xs IH]; simpl.
  - by apply emits_silent.
  - apply emits_bind; [apply Hbody|by intros _].
Qed.

Local Ltac emits_step :=
  lazymatch goal with
  | |- emits _ (_ ≫= _) => apply emits_bind; [|intros ?]
  | |- emits _ (call _) => apply emits_call; reflexivity
  | |- emits _ (for_each _ _) => apply emits_for_each; intros ?
  | |- emits _ (match ?x with _ => _ end) => destruct x
  | |- emits _ (guard ?b) => destruct b; by apply emits_silent
  | |- emits _ _ => by apply emits_silent
  end.

(** Inside the [try] block, only calls of the block are made. *)
Lemma try_body_emits (w : World) (dir db sc conn : string) :
  emits in_try (try_body w dir db sc conn).
Proof.
  unfold try_body, load_csv, deploy_table,
    do_session_create, do_use_database, do_use_schema, do_duckdb_connect,
    do_glob, do_execute_create, do_show_tables, do_to_arrow_table,
    do_create_dataframe, do_save_as_table.
  repeat emits_step.
Qed.

(** The record of a run: the first line, the calls of the [try] block,
    the handler's line when a step raised, the releases, and the last
    line when the function returns true. *)
Lemma run_body_calls (w : World) (dir db sc conn : string)
    (wh : gmap (string * string * string) Data) :
  let ph := stops_at w dir db sc conn in
  let hs := session_create_ok w conn in
  let hc := bool_decide (2 ≤ phase_rank ph) in
  ∃ l,
    trace (run w dir db sc conn wh).1 =
      [print MsgStarting] ++ l
      ++ match ph with
         | PDone | PNoFiles => []
         | _ => [print MsgError]
         end
      ++ finally_calls w hs hc
      ++ (if negb (finally_raises w hs hc) && steps_ok w dir db sc conn
          then [print MsgFinished] else [])
    ∧ forallb in_try l = true.
Proof.
  intros ph hs hc. unfold run, deploy_csvs_to_snowflake, steps_ok.
  fold ph.
  set (s0 := {| warehouse := wh; session := None; con := None;
                trace := [print MsgStarting] |}).
  destruct (try_body_spec w dir db sc conn s0 eq_refl eq_refl)
    as (s1 & l & Hrun & Htr & _ & _ & Hse & Hco & _).
  destruct (try_body_emits w dir db sc conn s0) as (l' & Hl' & HP).
  rewrite Hrun in Hl'. cbn [fst] in Hl'. rewrite Htr in Hl'.
  apply app_inv_head in Hl'. subst l'.
  fold ph in Hrun, Hco.
  assert (bool_decide (is_Some (session s1)) = hs) as Hhs.
  { rewrite Hse. unfold hs. by destruct (session_create_ok w conn). }
  assert (bool_decide (is_Some (con s1)) = hc) as Hhc.
  { unfold hc. case_decide.
    - rewrite bool_decide_eq_true_2 by done. by rewrite bool_decide_eq_true_2.
    - rewrite Hco.
      by rewrite !bool_decide_eq_false_2 by first [done | by intros [??]]. }
  cbv [mbind Py_bind call assign_session assign_con try_except_finally].
  cbn [warehouse session con trace app]. fold s0. rewrite Hrun.
  assert (∀ t, finally_body w
            {| warehouse := warehouse s1; session := session s1;
               con := con s1; trace := t |} =
          ({| warehouse := warehouse s1; session := session s1;
              con := con s1; trace := t ++ finally_calls w hs hc |},
           if finally_raises w hs hc then Raised else Normal ())) as Hfin.
  { intros t. rewrite finally_run. cbn [warehouse session con trace].
    by rewrite Hhs, Hhc. }
  assert (finally_body w s1 =
          ({| warehouse := warehouse s1; session := session s1;
              con := con s1; trace := trace s1 ++ finally_calls w hs hc |},
           if finally_raises w hs hc then Raised else Normal ())) as Hfin1.
  { rewrite finally_run. by rewrite Hhs, Hhc. }
  clearbody hs hc. clearbody ph.
  destruct ph; unfold except_body; cbv [mbind Py_bind call return_];
    rewrite ?Hfin, ?Hfin1;
    destruct (finally_raises w hs hc);
    cbn [warehouse session con trace negb andb fst];
    (exists l; split; [|done]; rewrite Htr;
     cbn [trace s0]; rewrite <- ?(assoc_L (++)), ?app_nil_r; reflexivity).
Qed.

(** X10.  The lines of the handler, of the [finally] block and of the end
    of the function, for every run.  The error line (line 69) is printed
    exactly when a step of the [try] block raised: not on the early return
    for an empty directory, and not when the block ran to its end.  The
    closing line of each handle is printed exactly when that handle was
    acquired and its release, and every release before it, went through.
    The last line (line 81) is printed exactly when the function returns
    true. *)
Theorem X10_reporting_lines
    (w : World) (dir db sc conn : string)
    (wh : gmap (string * string * string) Data) :
  let r := run w dir db sc conn wh in
  let ph := stops_at w dir db sc conn in
  (print MsgError ∈ trace r.1 ↔ ph ≠ PDone ∧ ph ≠ PNoFiles)
  ∧ (print MsgSnowflakeClosed ∈ trace r.1 ↔
     session_create_ok w conn = true ∧ session_close_ok w = true)
  ∧ (print MsgDuckClosed ∈ trace r.1 ↔
     connect_ok w db sc conn = true ∧ duckdb_connect_ok w = true
     ∧ session_close_ok w = true ∧ con_close_ok w = true)
  ∧ (print MsgFinished ∈ trace r.1 ↔ r.2 = Returned true).
Proof.
  intros r ph.
  destruct (run_body_calls w dir db sc conn wh) as (l & Htr & Hl).
  pose proof (run_result w dir db sc conn wh) as Hres.
  cbv zeta in Htr, Hres. fold r ph in Htr, Hres.
  pose proof (con_connected_iff w dir db sc conn) as Hcon. fold ph in Hcon.
  assert (∀ c, in_try c = false → c ∉ l) as Hout.
  { intros c Hc Hin. rewrite forallb_forall in Hl.
    apply list_elem_of_In, Hl in Hin. congruence. }
  assert (connect_ok w db sc conn = true → session_create_ok w conn = true)
    as Hsess.
  { unfold connect_ok. by intros [[? _]%andb_true_iff _]%andb_true_iff. }
  rewrite Htr, Hres. clear Htr Hres.
  unfold finally_calls, finally_raises, steps_ok. fold ph.
  split_and!.
  - rewrite !elem_of_app, list_elem_of_singleton. split.
    + intros [[=]|[Hin|[Hin|[[Hin|Hin]|Hin]]]].
      * by apply Hout in Hin.
      * by destruct ph; first [apply elem_of_nil in Hin | split].
      * destruct (session_create_ok w conn); [|by apply elem_of_nil in Hin].
        apply elem_of_cons in Hin as [[=]|Hin].
        destruct (session_close_ok w);
          [by apply list_elem_of_singleton in Hin|by apply elem_of_nil in Hin].
      * destruct (_ && _); [|by apply elem_of_nil in Hin].
        apply elem_of_cons in Hin as [[=]|Hin].
        destruct (con_close_ok w);
          [by apply list_elem_of_singleton in Hin|by apply elem_of_nil in Hin].
      * destruct (_ && _);
          [by apply list_elem_of_singleton in Hin|by apply elem_of_nil in Hin].
    + intros [H1 H2]. right. right. left.
      destruct ph; first [done | by apply list_elem_of_singleton].
  - rewrite !elem_of_app, list_elem_of_singleton. split.
    + intros [[=]|[Hin|[Hin|[[Hin|Hin]|Hin]]]].
      * by apply Hout in Hin.
      * by destruct ph;
          first [apply elem_of_nil in Hin | apply list_elem_of_singleton in Hin].
      * destruct (session_create_ok w conn); [|by apply elem_of_nil in Hin].
        apply elem_of_cons in Hin as [[=]|Hin].
        destruct (session_close_ok w); [done|by apply elem_of_nil in Hin].
      * destruct (_ && _); [|by apply elem_of_nil in Hin].
        apply elem_of_cons in Hin as [[=]|Hin].
        destruct (con_close_ok w);
          [by apply list_elem_of_singleton in Hin|by apply elem_of_nil in Hin].
      * destruct (_ && _);
          [by apply list_elem_of_singleton in Hin|by apply elem_of_nil in Hin].
    + intros [-> ->]. right. right. right. left. left.
      apply elem_of_cons. right. by apply list_elem_of_singleton.
  - rewrite !elem_of_app, list_elem_of_singleton. split.
    + intros [[=]|[Hin|[Hin|[[Hin|Hin]|Hin]]]].
      * by apply Hout in Hin.
      * by destruct ph;
          first [apply elem_of_nil in Hin | apply list_elem_of_singleton in Hin].
      * destruct (session_create_ok w conn); [|by apply elem_of_nil in Hin].
        apply elem_of_cons in Hin as [[=]|Hin].
        destruct (session_close_ok w);
          [by apply list_elem_of_singleton in Hin|by apply elem_of_nil in Hin].
      * destruct (bool_decide (2 ≤ phase_rank ph)) eqn:Hc;
          [|by apply elem_of_nil in Hin].
        apply bool_decide_eq_true, Hcon in Hc as [Hc Hd].
        rewrite (Hsess Hc) in Hin. cbn [negb orb andb] in Hin.
        destruct (session_close_ok w); [|by apply elem_of_nil in Hin].
        apply elem_of_cons in Hin as [[=]|Hin].
        destruct (con_close_ok w); [done|by apply elem_of_nil in Hin].
      * destruct (_ && _);
          [by apply list_elem_of_singleton in Hin|by apply elem_of_nil in Hin].
    + intros (Hc & Hd & Hs & Hcc). right. right. right. left. right.
      rewrite (bool_decide_eq_true_2 _ (proj2 Hcon (conj Hc Hd))).
      rewrite (Hsess Hc), Hs, Hcc. cbn.
      apply elem_of_cons. right. by apply list_elem_of_singleton.
  - rewrite !elem_of_app, list_elem_of_singleton.
    assert (∀ (b : bool) (x : Call), x ∈ (if b then [x] else []) ↔ b = true)
      as Hif.
    { intros [] x; [by rewrite list_elem_of_singleton|].
      split; [by intros ?%elem_of_nil|done]. }
    split.
    + intros [[=]|[Hin|[Hin|[[Hin|Hin]|Hin]]]].
      * by apply Hout in Hin.
      * by destruct ph;
          first [apply elem_of_nil in Hin | apply list_elem_of_singleton in Hin].
      * destruct (session_create_ok w conn); [|by apply elem_of_nil in Hin].
        apply elem_of_cons in Hin as [[=]|Hin].
        destruct (session_close_ok w);
          [by apply list_elem_of_singleton in Hin|by apply elem_of_nil in Hin].
      * destruct (_ && _); [|by apply elem_of_nil in Hin].
        apply elem_of_cons in Hin as [[=]|Hin].
        destruct (con_close_ok w);
          [by apply list_elem_of_singleton in Hin|by apply elem_of_nil in Hin].
      * apply Hif, andb_true_iff in Hin as [Hr%negb_true_iff Hok].
        unfold finally_raises in Hr. by rewrite Hr, Hok.
    + intros Hret. do 4 right. apply Hif.
      destruct (_ || _); [done|]. by injection Hret as ->.
Qed.

End TraceDetail.
